(** * Valve state coordination of the ESP32 water-valve controller

    A shallow embedding of the two C translation units that decide the
    valve state:

    - [mqtt_relay_client.c]: the MQTT side (publish, command parsing,
      connection events), in [Module Mqtt];
    - the application file with the LVGL callbacks (toggle button,
      countdown timer, MQTT state callback), in [Module App].

    File-scope [static] variables of both units are the fields of one
    [World] record.  Every C function becomes a computation in a small
    state-and-trace monad [M]: it reads and writes the [World] and emits
    the calls it makes to its collaborators (LVGL widgets, the LVGL
    timer, the MQTT client, the logger) as a list of [Effect]s, in call
    order. *)

From Stdlib Require Import ZArith List String Ascii Bool Lia DecimalString.
Import ListNotations.

Local Open Scope Z_scope.

(* ------------------------------------------------------------------ *)
(** ** C strings and [int] *)

Module CStr.

Definition NUL : ascii := Ascii.zero.

(** A [char] read as [unsigned char], the way [strcmp] compares. *)
Definition code (c : ascii) : Z := Z.of_N (N_of_ascii c).

(** First character of a buffer; reading at the end of a literal
    yields its terminator. *)
Definition head (s : string) : ascii :=
  match s with
  | EmptyString => NUL
  | String c _ => c
  end.

Definition tail (s : string) : string :=
  match s with
  | EmptyString => EmptyString
  | String _ r => r
  end.

(** The C string held by a buffer: its characters before the first
    NUL. *)
Fixpoint c_str (buf : string) : string :=
  match buf with
  | EmptyString => EmptyString
  | String c r => if Ascii.eqb c NUL then EmptyString else String c (c_str r)
  end.

Definition strlen (buf : string) : Z := Z.of_nat (String.length (c_str buf)).

(** [strcmp]: difference of the first pair of differing characters,
    0 when both strings end together. *)
Fixpoint strcmp (a b : string) : Z :=
  match a with
  | EmptyString => 0 - code (head b)
  | String ca ra =>
      match b with
      | EmptyString => code ca - 0
      | String cb rb =>
          if Ascii.eqb ca cb
          then if Ascii.eqb ca NUL then 0 else strcmp ra rb
          else code ca - code cb
      end
  end.

(** [strncmp]: as [strcmp], over at most [n] characters. *)
Fixpoint strncmp (a b : string) (n : nat) : Z :=
  match n with
  | O => 0
  | S n' =>
      let ca := head a in
      let cb := head b in
      if Ascii.eqb ca cb
      then if Ascii.eqb ca NUL then 0 else strncmp (tail a) (tail b) n'
      else code ca - code cb
  end.

(** A zero-initialised [char buf[n]]. *)
Fixpoint zeros (n : nat) : string :=
  match n with
  | O => EmptyString
  | S n' => String NUL (zeros n')
  end.

Fixpoint take (n : nat) (s : string) : string :=
  match n, s with
  | S n', String c r => String c (take n' r)
  | _, _ => EmptyString
  end.

Fixpoint drop (n : nat) (s : string) : string :=
  match n, s with
  | S n', String _ r => drop n' r
  | _, _ => s
  end.

(** [memcpy(dst, src, n)]: the first [n] bytes of [dst] are replaced by
    those of [src]. *)
Definition memcpy (dst src : string) (n : nat) : string :=
  (take n src ++ drop n dst)%string.

(** The double-quote character, for JSON text. *)
Definition dquote : string := String (ascii_of_nat 34) EmptyString.
Definition quoted (s : string) : string := (dquote ++ s ++ dquote)%string.

(** [snprintf(buf, size, ...)] keeps at most [size - 1] characters. *)
Definition snprintf_fit (size : nat) (s : string) : string := take (size - 1) s.

(** [%d] *)
Definition fmt_d (z : Z) : string := NilZero.string_of_int (Z.to_int z).

(** [%02d]: at least two characters, padded with a zero on the left. *)
Definition fmt_02d (z : Z) : string :=
  let s := fmt_d z in
  if (String.length s <? 2)%nat then ("0" ++ s)%string else s.

End CStr.

(** 32-bit [int] and [size_t]. *)
Definition int_wrap (z : Z) : Z := (z + 2147483648) mod 4294967296 - 2147483648.
Definition to_size_t (z : Z) : Z := z mod 4294967296.

(* ------------------------------------------------------------------ *)
(** ** Collaborator calls *)

Inductive log_level := LOG_ERROR | LOG_WARN | LOG_INFO | LOG_DEBUG.

(** Arguments of a log line, kept next to its format string. *)
Inductive log_arg :=
| ArgS (s : string)
| ArgD (z : Z).

(** The three widgets the callbacks touch. *)
Inductive lv_obj := toggle_btn | btn_label | timer_label.

Inductive lv_state := LV_STATE_CHECKED.

Inductive Effect :=
| esp_log (lvl : log_level) (tag fmt : string) (args : list log_arg)
| lv_label_set_text (obj : lv_obj) (text : string)
| lv_obj_add_state (obj : lv_obj) (st : lv_state)
| lv_obj_clear_state (obj : lv_obj) (st : lv_state)
| lv_timer_create (period_ms : Z)
| lv_timer_resume
| lv_timer_pause
| esp_mqtt_client_publish (topic data : string) (len qos retain : Z)
| esp_mqtt_client_subscribe (topic : string) (qos : Z).

(* ------------------------------------------------------------------ *)
(** ** The world: file-scope variables and the environment *)

(** The LVGL timer behind [countdown_timer]: all the callbacks need of
    it is whether it is paused. *)
Record lv_timer_t := { paused : bool }.

(** The only function ever stored in [state_change_callback]. *)
Inductive mqtt_state_change_callback_t := Fn_mqtt_state_callback.

Record World := mkWorld {
  (* application file *)
  seconds_remaining : Z;
  timer_running : bool;
  countdown_timer : option lv_timer_t;
  (* mqtt_relay_client.c *)
  mqtt_connected : bool;
  state_change_callback : option mqtt_state_change_callback_t;
  (* environment: the outcomes of the coming [lvgl_port_lock] calls and
     the message ids the coming [esp_mqtt_client_publish] calls return;
     an exhausted script stands for a lock that is acquired (timeout 0
     waits for it) and a client that accepts the message *)
  lvgl_lock_script : list bool;
  mqtt_msg_id_script : list Z
}.

Definition set_seconds_remaining (v : Z) (w : World) : World :=
  mkWorld v (timer_running w) (countdown_timer w) (mqtt_connected w)
          (state_change_callback w) (lvgl_lock_script w) (mqtt_msg_id_script w).

Definition set_timer_running (v : bool) (w : World) : World :=
  mkWorld (seconds_remaining w) v (countdown_timer w) (mqtt_connected w)
          (state_change_callback w) (lvgl_lock_script w) (mqtt_msg_id_script w).

Definition set_countdown_timer (v : option lv_timer_t) (w : World) : World :=
  mkWorld (seconds_remaining w) (timer_running w) v (mqtt_connected w)
          (state_change_callback w) (lvgl_lock_script w) (mqtt_msg_id_script w).

Definition set_mqtt_connected (v : bool) (w : World) : World :=
  mkWorld (seconds_remaining w) (timer_running w) (countdown_timer w) v
          (state_change_callback w) (lvgl_lock_script w) (mqtt_msg_id_script w).

Definition set_state_change_callback
    (v : option mqtt_state_change_callback_t) (w : World) : World :=
  mkWorld (seconds_remaining w) (timer_running w) (countdown_timer w)
          (mqtt_connected w) v (lvgl_lock_script w) (mqtt_msg_id_script w).

Definition set_lvgl_lock_script (v : list bool) (w : World) : World :=
  mkWorld (seconds_remaining w) (timer_running w) (countdown_timer w)
          (mqtt_connected w) (state_change_callback w) v (mqtt_msg_id_script w).

Definition set_mqtt_msg_id_script (v : list Z) (w : World) : World :=
  mkWorld (seconds_remaining w) (timer_running w) (countdown_timer w)
          (mqtt_connected w) (state_change_callback w) (lvgl_lock_script w) v.

(* ------------------------------------------------------------------ *)
(** ** The monad of C functions *)

Definition M (A : Type) : Type := World -> A * World * list Effect.

Definition ret {A} (a : A) : M A := fun w => (a, w, []).

Definition bind {A B} (m : M A) (k : A -> M B) : M B :=
  fun w =>
    let '(a, w1, t1) := m w in
    let '(b, w2, t2) := k a w1 in
    (b, w2, t1 ++ t2).

Declare Scope cfun_scope.
Delimit Scope cfun_scope with cfun.
Notation "x <- m ;; k" := (bind m (fun x => k))
  (at level 61, m at next level, right associativity) : cfun_scope.
Notation "m ;; k" := (bind m (fun _ => k))
  (at level 61, right associativity) : cfun_scope.
Local Open Scope cfun_scope.

Definition gets {A} (f : World -> A) : M A := fun w => (f w, w, []).
Definition modify (f : World -> World) : M unit := fun w => (tt, f w, []).
Definition emit (e : Effect) : M unit := fun w => (tt, w, [e]).

(** World and trace after running a function. *)
Definition exec {A} (m : M A) (w : World) : World := snd (fst (m w)).
Definition effects {A} (m : M A) (w : World) : list Effect := snd (m w).

Definition ESP_LOGE (tag fmt : string) (args : list log_arg) : M unit :=
  emit (esp_log LOG_ERROR tag fmt args).
Definition ESP_LOGW (tag fmt : string) (args : list log_arg) : M unit :=
  emit (esp_log LOG_WARN tag fmt args).
Definition ESP_LOGI (tag fmt : string) (args : list log_arg) : M unit :=
  emit (esp_log LOG_INFO tag fmt args).
Definition ESP_LOGD (tag fmt : string) (args : list log_arg) : M unit :=
  emit (esp_log LOG_DEBUG tag fmt args).

(** [lvgl_port_lock(timeout_ms)]: the outcome comes from the script, for
    a nested acquisition too (the lock is recursive, so this allows
    more failures than the device can show). *)
Definition lvgl_port_lock (timeout_ms : Z) : M bool :=
  fun w =>
    match lvgl_lock_script w with
    | [] => (true, w, [])
    | b :: rest => (b, set_lvgl_lock_script rest w, [])
    end.

Definition lvgl_port_unlock : M unit := ret tt.

(** The client call: emitted to the trace; the returned message id comes
    from the script ([-1] reports a failure). *)
Definition call_esp_mqtt_client_publish
    (topic data : string) (len qos retain : Z) : M Z :=
  fun w =>
    match mqtt_msg_id_script w with
    | [] => (1, w, [esp_mqtt_client_publish topic data len qos retain])
    | id :: rest =>
        (id, set_mqtt_msg_id_script rest w,
         [esp_mqtt_client_publish topic data len qos retain])
    end.

(* ------------------------------------------------------------------ *)
(** ** mqtt_relay_client.c *)

Module Mqtt.

Definition TAG : string := "MQTT_VALVE".

Definition DEVICE_NAME : string := "water_valve_controller".
Definition DEVICE_MODEL : string := "ESP32CYD".
Definition DEVICE_MANUFACTURER : string := "Custom".

Definition STATE_TOPIC : string := "water_valve/state".
Definition COMMAND_TOPIC : string := "water_valve/set".
Definition AVAILABILITY_TOPIC : string := "water_valve/status".
Definition DISCOVERY_TOPIC : string := "homeassistant/switch/water_valve/config".

Definition log_error_if_nonzero (message : string) (error_code : Z) : M unit :=
  if negb (error_code =? 0)
  then ESP_LOGE TAG "Last error %s: 0x%x" [ArgS message; ArgD error_code]
  else ret tt.

Definition mqtt_is_connected : M bool := gets mqtt_connected.

(** The JSON text [snprintf] writes into [message[512]]. *)
Definition discovery_message : string :=
  let q := CStr.quoted in
  CStr.snprintf_fit 512
    ("{" ++
     q "name" ++ ":" ++ q "Water Valve" ++ "," ++
     q "unique_id" ++ ":" ++ q "water_valve_controller" ++ "," ++
     q "state_topic" ++ ":" ++ q STATE_TOPIC ++ "," ++
     q "command_topic" ++ ":" ++ q COMMAND_TOPIC ++ "," ++
     q "payload_on" ++ ":" ++ q "ON" ++ "," ++
     q "payload_off" ++ ":" ++ q "OFF" ++ "," ++
     q "availability_topic" ++ ":" ++ q AVAILABILITY_TOPIC ++ "," ++
     q "payload_available" ++ ":" ++ q "online" ++ "," ++
     q "payload_not_available" ++ ":" ++ q "offline" ++ "," ++
     q "device" ++ ":{" ++
       q "identifiers" ++ ":[" ++ q DEVICE_NAME ++ "]," ++
       q "name" ++ ":" ++ q DEVICE_NAME ++ "," ++
       q "model" ++ ":" ++ q DEVICE_MODEL ++ "," ++
       q "manufacturer" ++ ":" ++ q DEVICE_MANUFACTURER ++
     "}" ++
     "}")%string.

Definition publish_discovery_info : M unit :=
  connected <- mqtt_is_connected ;;
  if negb connected then
    ESP_LOGD TAG "MQTT not connected, skipping discovery publish" []
  else
    msg_id <- call_esp_mqtt_client_publish DISCOVERY_TOPIC discovery_message 0 1 1 ;;
    if negb (msg_id =? -1)
    then ESP_LOGI TAG "Published discovery info for water valve" []
    else ESP_LOGW TAG "Failed to publish discovery info for water valve" [].

Definition on_off (state : bool) : string := if state then "ON" else "OFF".

Definition mqtt_publish_relay_state (relay_num : Z) (state : bool) : M unit :=
  connected <- mqtt_is_connected ;;
  if negb connected then
    ESP_LOGD TAG "MQTT not connected, skipping valve state publish" []
  else
    msg_id <- call_esp_mqtt_client_publish STATE_TOPIC (on_off state) 0 1 1 ;;
    if negb (msg_id =? -1)
    then ESP_LOGI TAG "Published water valve state: %s" [ArgS (on_off state)]
    else ESP_LOGW TAG "Failed to publish water valve state" [].

Definition mqtt_publish_all_relay_states : M unit :=
  mqtt_publish_relay_state 1 false.

Definition mqtt_register_state_change_callback
    (callback : option mqtt_state_change_callback_t) : M unit :=
  modify (set_state_change_callback callback).

(** What the broker client hands to [mqtt_event_handler]: the event id
    with the fields of [esp_mqtt_event_t] the handler reads.  For a
    data event [topic_len] and [data_len] are the lengths of [topic]
    and [data]. *)
Inductive esp_mqtt_event :=
| MQTT_EVENT_ERROR (tcp_transport : bool)
    (esp_tls_last_esp_err esp_tls_stack_err esp_transport_sock_errno : Z)
    (strerror_text : string)
| MQTT_EVENT_CONNECTED
| MQTT_EVENT_DISCONNECTED
| MQTT_EVENT_SUBSCRIBED (msg_id : Z)
| MQTT_EVENT_UNSUBSCRIBED (msg_id : Z)
| MQTT_EVENT_PUBLISHED (msg_id : Z)
| MQTT_EVENT_DATA (topic data : string)
| MQTT_EVENT_OTHER (event_id : Z).

(** Values of [esp_mqtt_event_id_t] in the ESP-IDF header. *)
Definition event_id (e : esp_mqtt_event) : Z :=
  match e with
  | MQTT_EVENT_ERROR _ _ _ _ _ => 0
  | MQTT_EVENT_CONNECTED => 1
  | MQTT_EVENT_DISCONNECTED => 2
  | MQTT_EVENT_SUBSCRIBED _ => 3
  | MQTT_EVENT_UNSUBSCRIBED _ => 4
  | MQTT_EVENT_PUBLISHED _ => 5
  | MQTT_EVENT_DATA _ _ => 6
  | MQTT_EVENT_OTHER id => id
  end.

Definition len (s : string) : Z := Z.of_nat (String.length s).

Section Dispatch.

(** The indirect call through [state_change_callback], resolved once
    the application file is in scope. *)
Variable call_callback : mqtt_state_change_callback_t -> Z -> bool -> M unit.

Definition handle_valve_command (payload : string) (payload_len : Z) : M unit :=
  let cmd := CStr.zeros 16 in
  let cmd :=
    if to_size_t payload_len <? 16 - 1
    then CStr.memcpy cmd payload (Z.to_nat payload_len)
    else CStr.memcpy cmd payload (16 - 1) in
  let parsed :=
    if CStr.strcmp cmd "ON" =? 0 then Some true
    else if CStr.strcmp cmd "OFF" =? 0 then Some false
    else None in
  match parsed with
  | None => ESP_LOGW TAG "Unknown command: %s" [ArgS (CStr.c_str cmd)]
  | Some state =>
      ESP_LOGI TAG "Setting water valve to %s via MQTT" [ArgS (on_off state)] ;;
      mqtt_publish_relay_state 1 state ;;
      cb <- gets state_change_callback ;;
      match cb with
      | Some f => call_callback f 1 state
      | None => ret tt
      end
  end.

(** The format of the first log line ends in the [PRIi32] conversion,
    written [%d] here. *)
Definition mqtt_event_handler (base : string) (event : esp_mqtt_event) : M unit :=
  ESP_LOGD TAG "Event dispatched from event loop base=%s, event_id=%d"
           [ArgS base; ArgD (event_id event)] ;;
  match event with
  | MQTT_EVENT_CONNECTED =>
      ESP_LOGI TAG "MQTT_EVENT_CONNECTED" [] ;;
      modify (set_mqtt_connected true) ;;
      call_esp_mqtt_client_publish AVAILABILITY_TOPIC "online" 0 1 1 ;;
      publish_discovery_info ;;
      emit (esp_mqtt_client_subscribe COMMAND_TOPIC 0) ;;
      ESP_LOGI TAG "Subscribed to %s" [ArgS COMMAND_TOPIC] ;;
      mqtt_publish_relay_state 1 false
  | MQTT_EVENT_DISCONNECTED =>
      ESP_LOGW TAG "MQTT_EVENT_DISCONNECTED" [] ;;
      modify (set_mqtt_connected false)
  | MQTT_EVENT_SUBSCRIBED msg_id =>
      ESP_LOGI TAG "MQTT_EVENT_SUBSCRIBED, msg_id=%d" [ArgD msg_id]
  | MQTT_EVENT_UNSUBSCRIBED msg_id =>
      ESP_LOGI TAG "MQTT_EVENT_UNSUBSCRIBED, msg_id=%d" [ArgD msg_id]
  | MQTT_EVENT_PUBLISHED msg_id =>
      ESP_LOGI TAG "MQTT_EVENT_PUBLISHED, msg_id=%d" [ArgD msg_id]
  | MQTT_EVENT_DATA topic data =>
      ESP_LOGI TAG "MQTT_EVENT_DATA" [] ;;
      ESP_LOGI TAG "TOPIC=%.*s" [ArgD (len topic); ArgS topic] ;;
      ESP_LOGI TAG "DATA=%.*s" [ArgD (len data); ArgS data] ;;
      if (len topic =? CStr.strlen COMMAND_TOPIC)
         && (CStr.strncmp topic COMMAND_TOPIC (String.length topic) =? 0)
      then handle_valve_command data (len data)
      else ret tt
  | MQTT_EVENT_ERROR tcp e_tls e_stack e_sock text =>
      ESP_LOGW TAG "MQTT_EVENT_ERROR" [] ;;
      if tcp then
        log_error_if_nonzero "reported from esp-tls" e_tls ;;
        log_error_if_nonzero "reported from tls stack" e_stack ;;
        log_error_if_nonzero "captured as transport's socket errno" e_sock ;;
        ESP_LOGI TAG "Last errno string (%s)" [ArgS text]
      else ret tt
  | MQTT_EVENT_OTHER id =>
      ESP_LOGI TAG "Other event id:%d" [ArgD id]
  end.

End Dispatch.

End Mqtt.

(* ------------------------------------------------------------------ *)
(** ** The application file: toggle button, countdown, MQTT callback *)

Module App.

Definition TAG : string := "water_control".

Inductive lv_event_code_t := LV_EVENT_VALUE_CHANGED | LV_EVENT_OTHER.

Definition lv_event_code_eqb (a b : lv_event_code_t) : bool :=
  match a, b with
  | LV_EVENT_VALUE_CHANGED, LV_EVENT_VALUE_CHANGED => true
  | LV_EVENT_OTHER, LV_EVENT_OTHER => true
  | _, _ => false
  end.

(** [int] division and remainder truncate towards zero; the text is at
    most 15 characters (fits [time_str[16]]) for every value the
    countdown takes. *)
Definition update_timer_display : M unit :=
  sr <- gets seconds_remaining ;;
  let minutes := Z.quot sr 60 in
  let seconds := Z.rem sr 60 in
  let time_str := (CStr.fmt_02d minutes ++ ":" ++ CStr.fmt_02d seconds)%string in
  locked <- lvgl_port_lock 0 ;;
  if locked then
    emit (lv_label_set_text timer_label time_str) ;;
    lvgl_port_unlock
  else ret tt.

Definition start_countdown : M unit :=
  modify (set_seconds_remaining 300) ;;
  modify (set_timer_running true) ;;
  update_timer_display ;;
  t <- gets countdown_timer ;;
  match t with
  | None =>
      emit (lv_timer_create 1000) ;;
      modify (set_countdown_timer (Some {| paused := false |}))
  | Some _ =>
      emit lv_timer_resume ;;
      modify (set_countdown_timer (Some {| paused := false |}))
  end.

Definition stop_countdown : M unit :=
  modify (set_timer_running false) ;;
  modify (set_seconds_remaining 300) ;;
  t <- gets countdown_timer ;;
  match t with
  | Some _ =>
      emit lv_timer_pause ;;
      modify (set_countdown_timer (Some {| paused := true |}))
  | None => ret tt
  end ;;
  update_timer_display.

(** [is_checked] is what [lv_obj_has_state(obj, LV_STATE_CHECKED)]
    returns for the button the event comes from. *)
Definition toggle_event_cb (code : lv_event_code_t) (is_checked : bool) : M unit :=
  if lv_event_code_eqb code LV_EVENT_VALUE_CHANGED then
    if is_checked then
      ESP_LOGI TAG "Water turned ON" [] ;;
      emit (lv_label_set_text btn_label "Turn Water Off") ;;
      Mqtt.mqtt_publish_relay_state 1 true ;;
      start_countdown
    else
      ESP_LOGI TAG "Water turned OFF" [] ;;
      emit (lv_label_set_text btn_label "Turn Water On") ;;
      Mqtt.mqtt_publish_relay_state 1 false ;;
      stop_countdown
  else ret tt.

Definition countdown_timer_cb : M unit :=
  running <- gets timer_running ;;
  if negb running then ret tt
  else
    modify (fun w => set_seconds_remaining (int_wrap (seconds_remaining w - 1)) w) ;;
    update_timer_display ;;
    sr <- gets seconds_remaining ;;
    if sr <=? 0 then
      ESP_LOGI TAG "Timer expired, turning water OFF" [] ;;
      locked <- lvgl_port_lock 0 ;;
      (if locked then
         emit (lv_obj_clear_state toggle_btn LV_STATE_CHECKED) ;;
         emit (lv_label_set_text btn_label "Turn Water On") ;;
         lvgl_port_unlock
       else ret tt) ;;
      Mqtt.mqtt_publish_relay_state 1 false ;;
      stop_countdown
    else ret tt.

Definition mqtt_state_callback (relay_num : Z) (state : bool) : M unit :=
  ESP_LOGI TAG "Received MQTT state change: relay %d -> %s"
           [ArgD relay_num; ArgS (Mqtt.on_off state)] ;;
  locked <- lvgl_port_lock 0 ;;
  if locked then
    (if state then
       emit (lv_obj_add_state toggle_btn LV_STATE_CHECKED) ;;
       emit (lv_label_set_text btn_label "Turn Water Off") ;;
       running <- gets timer_running ;;
       if negb running then start_countdown else ret tt
     else
       emit (lv_obj_clear_state toggle_btn LV_STATE_CHECKED) ;;
       emit (lv_label_set_text btn_label "Turn Water On") ;;
       running <- gets timer_running ;;
       if running then stop_countdown else ret tt) ;;
    lvgl_port_unlock
  else ret tt.

End App.

(* ------------------------------------------------------------------ *)
(** ** The linked program *)

Definition call_callback (f : mqtt_state_change_callback_t) : Z -> bool -> M unit :=
  match f with
  | Fn_mqtt_state_callback => App.mqtt_state_callback
  end.

Definition handle_valve_command : string -> Z -> M unit :=
  Mqtt.handle_valve_command call_callback.

Definition mqtt_event_handler : string -> Mqtt.esp_mqtt_event -> M unit :=
  Mqtt.mqtt_event_handler call_callback.

(* ------------------------------------------------------------------ *)
(** ** The coordinator seen from outside *)

(** Why a transition is requested. *)
Inductive ChangeOrigin := UserToggle | RemoteCommand | TimerExpiry.

(** The entry point each origin uses to open the valve: the toggle
    callback with the button checked, the command handler with payload
    "ON".  The timer never opens the valve. *)
Definition request_open (origin : ChangeOrigin) : M unit :=
  match origin with
  | UserToggle => App.toggle_event_cb App.LV_EVENT_VALUE_CHANGED true
  | RemoteCommand => handle_valve_command "ON" 2
  | TimerExpiry => ret tt
  end.

(** The entry point each origin uses to close it: the toggle callback
    with the button unchecked, the command handler with payload "OFF",
    and the timer callback, which closes when its decrement reaches 0. *)
Definition request_close (origin : ChangeOrigin) : M unit :=
  match origin with
  | UserToggle => App.toggle_event_cb App.LV_EVENT_VALUE_CHANGED false
  | RemoteCommand => handle_valve_command "OFF" 3
  | TimerExpiry => App.countdown_timer_cb
  end.

Definition on_timer_tick : M unit := App.countdown_timer_cb.

(** The canonical valve state. *)
Definition is_open (w : World) : bool := timer_running w.
Definition remaining_seconds (w : World) : Z := seconds_remaining w.

(** Whether the countdown timer delivers ticks. *)
Definition timer_armed (w : World) : bool :=
  match countdown_timer w with
  | Some t => negb (paused t)
  | None => false
  end.

(** Everything that can happen to the running program. *)
Inductive Event :=
| EvToggle (code : App.lv_event_code_t) (is_checked : bool)
| EvTick
| EvMqtt (base : string) (event : Mqtt.esp_mqtt_event)
| EvRegister (callback : option mqtt_state_change_callback_t)
| EvPublishAll.

Definition handle (e : Event) : M unit :=
  match e with
  | EvToggle code is_checked => App.toggle_event_cb code is_checked
  | EvTick => App.countdown_timer_cb
  | EvMqtt base event => mqtt_event_handler base event
  | EvRegister callback => Mqtt.mqtt_register_state_change_callback callback
  | EvPublishAll => Mqtt.mqtt_publish_all_relay_states
  end.

Fixpoint run (evs : list Event) : M unit :=
  match evs with
  | [] => ret tt
  | e :: rest => handle e ;; run rest
  end.

(** [n] timer ticks in a row. *)
Fixpoint ticks (n : nat) : M unit :=
  match n with
  | O => ret tt
  | S n' => on_timer_tick ;; ticks n'
  end.

(** The variables as their initialisers leave them; the environment is
    arbitrary. *)
Definition initial (w : World) : Prop :=
  seconds_remaining w = 300 /\ timer_running w = false /\
  countdown_timer w = None /\ mqtt_connected w = false /\
  state_change_callback w = None.

Definition reachable (w : World) : Prop :=
  exists w0 evs, initial w0 /\ w = exec (run evs) w0.

(** The world at power-on, with a lock that is always acquired and a
    client that accepts every message; the same once [app_main] has
    registered the callback; and the latter once the broker is
    connected. *)
Definition power_on : World := mkWorld 300 false None false None [] [].

Definition booted : World :=
  exec (Mqtt.mqtt_register_state_change_callback (Some Fn_mqtt_state_callback))
       power_on.

Definition online : World := set_mqtt_connected true booted.

Definition ValveInv (w : World) : Prop :=
  0 <= seconds_remaining w <= 300 /\
  (timer_running w = true -> 0 < seconds_remaining w) /\
  (timer_running w = false -> seconds_remaining w = 300).

(** *** Reading a trace *)

Definition is_publish (e : Effect) : bool :=
  match e with
  | esp_mqtt_client_publish _ _ _ _ _ => true
  | _ => false
  end.

Definition is_state_publish (e : Effect) : bool :=
  match e with
  | esp_mqtt_client_publish topic _ _ _ _ => String.eqb topic Mqtt.STATE_TOPIC
  | _ => false
  end.

Definition is_display (e : Effect) : bool :=
  match e with
  | lv_label_set_text _ _ | lv_obj_add_state _ _ | lv_obj_clear_state _ _ => true
  | _ => false
  end.

Definition is_toggle_visual (e : Effect) : bool :=
  match e with
  | lv_obj_add_state toggle_btn _ | lv_obj_clear_state toggle_btn _ => true
  | _ => false
  end.

Definition is_timer_call (e : Effect) : bool :=
  match e with
  | lv_timer_create _ | lv_timer_resume | lv_timer_pause => true
  | _ => false
  end.

Definition publishes (t : list Effect) : list Effect := filter is_publish t.
Definition state_publishes (t : list Effect) : list Effect := filter is_state_publish t.
Definition display_calls (t : list Effect) : list Effect := filter is_display t.
Definition toggle_visuals (t : list Effect) : list Effect := filter is_toggle_visual t.
Definition timer_calls (t : list Effect) : list Effect := filter is_timer_call t.

(** The retained publish of a valve state. *)
Definition publish_state (state : bool) : Effect :=
  esp_mqtt_client_publish Mqtt.STATE_TOPIC (Mqtt.on_off state) 0 1 1.

(** The payload the broker retains on the state topic after a trace. *)
Definition retained_state (t : list Effect) : option string :=
  match rev (state_publishes t) with
  | esp_mqtt_client_publish _ data _ _ retain :: _ =>
      if retain =? 1 then Some data else None
  | _ => None
  end.

(** *** Worlds, requests and observations used in the statements *)

Definition request (origin : ChangeOrigin) (opening : bool) : M unit :=
  if opening then request_open origin else request_close origin.

(** What a request does apart from the network: the variables of the
    application, the callback, the lock script left, ... *)
Definition local_state (w : World) :=
  (seconds_remaining w, timer_running w, countdown_timer w,
   state_change_callback w, lvgl_lock_script w).

(** ... and the calls made to the display and to the timer. *)
Definition local_calls (t : list Effect) : list Effect :=
  filter (fun e => is_display e || is_timer_call e) t.

Definition is_countdown_text (e : Effect) : bool :=
  match e with
  | lv_label_set_text timer_label _ => true
  | _ => false
  end.

(** The events that can publish to the state topic. *)
Definition announcing (e : Event) (w : World) : bool :=
  match e with
  | EvToggle code _ => App.lv_event_code_eqb code App.LV_EVENT_VALUE_CHANGED
  | EvTick => timer_running w && (int_wrap (seconds_remaining w - 1) <=? 0)
  | EvMqtt _ Mqtt.MQTT_EVENT_CONNECTED => true
  | EvMqtt _ (Mqtt.MQTT_EVENT_DATA topic _) => String.eqb topic Mqtt.COMMAND_TOPIC
  | EvPublishAll => true
  | _ => false
  end.

(** An open valve with 50 seconds left, callback registered, broker
    connected. *)
Definition open_50 : World :=
  mkWorld 50 true (Some {| paused := false |}) true
          (Some Fn_mqtt_state_callback) [] [].

(** The valve as a remote "ON" leaves it on a connected device. *)
Definition remotely_opened : World := exec (request_open RemoteCommand) online.

(** The four bytes 'O' 'N' NUL 'x'. *)
Definition payload_ON_NUL_x : string :=
  String "O" (String "N" (String CStr.NUL (String "x" EmptyString))).

(* ------------------------------------------------------------------ *)
(** ** mqtt_relay_client.c: the WiFi station *)

Module Wifi.

Definition WIFI_MAXIMUM_RETRY : Z := 5.

(** [BIT0] and [BIT1] of the event group. *)
Definition WIFI_CONNECTED_BIT : Z := 1.
Definition WIFI_FAIL_BIT : Z := 2.

Inductive esp_event_base_t := WIFI_EVENT | IP_EVENT | OTHER_EVENT_BASE.

Definition esp_event_base_eqb (a b : esp_event_base_t) : bool :=
  match a, b with
  | WIFI_EVENT, WIFI_EVENT | IP_EVENT, IP_EVENT
  | OTHER_EVENT_BASE, OTHER_EVENT_BASE => true
  | _, _ => false
  end.

(** Event ids, with their values in the ESP-IDF headers. *)
Definition WIFI_EVENT_STA_START : Z := 2.
Definition WIFI_EVENT_STA_DISCONNECTED : Z := 5.
Definition IP_EVENT_STA_GOT_IP : Z := 0.

(** The file-scope variables of the station: the retry counter and the
    bits of [s_wifi_event_group]. *)
Record State := mkState {
  s_retry_num : Z;
  s_wifi_event_group : Z
}.

(** The calls the handler makes. *)
Inductive Call :=
| esp_wifi_connect
| xEventGroupSetBits (bits : Z)
| log_line (lvl : log_level) (tag fmt : string) (args : list log_arg).

(** [ip] holds the four numbers [IP2STR] prints for a got-IP event. *)
Definition wifi_event_handler
    (event_base : esp_event_base_t) (event_id : Z) (ip : list Z) (st : State)
    : State * list Call :=
  if esp_event_base_eqb event_base WIFI_EVENT && (event_id =? WIFI_EVENT_STA_START)
  then (st, [esp_wifi_connect])
  else if esp_event_base_eqb event_base WIFI_EVENT
          && (event_id =? WIFI_EVENT_STA_DISCONNECTED)
  then
    let '(st1, calls) :=
      if s_retry_num st <? WIFI_MAXIMUM_RETRY
      then (mkState (int_wrap (s_retry_num st + 1)) (s_wifi_event_group st),
            [esp_wifi_connect;
             log_line LOG_INFO Mqtt.TAG "Retry to connect to the AP" []])
      else (mkState (s_retry_num st) (Z.lor (s_wifi_event_group st) WIFI_FAIL_BIT),
            [xEventGroupSetBits WIFI_FAIL_BIT]) in
    (st1, calls ++ [log_line LOG_INFO Mqtt.TAG "Connect to the AP fail" []])
  else if esp_event_base_eqb event_base IP_EVENT && (event_id =? IP_EVENT_STA_GOT_IP)
  then
    (mkState 0 (Z.lor (s_wifi_event_group st) WIFI_CONNECTED_BIT),
     [log_line LOG_INFO Mqtt.TAG "Got IP:%d.%d.%d.%d" (map ArgD ip);
      xEventGroupSetBits WIFI_CONNECTED_BIT])
  else (st, []).

(** A sequence of events, each with its base, id and address. *)
Fixpoint wifi_events (evs : list (esp_event_base_t * Z * list Z)) (st : State)
    : State * list Call :=
  match evs with
  | [] => (st, [])
  | (base, id, ip) :: rest =>
      let '(st1, c1) := wifi_event_handler base id ip st in
      let '(st2, c2) := wifi_events rest st1 in
      (st2, c1 ++ c2)
  end.

Definition disconnected_event : esp_event_base_t * Z * list Z :=
  (WIFI_EVENT, WIFI_EVENT_STA_DISCONNECTED, []).

Definition is_connect (c : Call) : bool :=
  match c with
  | esp_wifi_connect => true
  | _ => false
  end.

Definition is_fail_bit (c : Call) : bool :=
  match c with
  | xEventGroupSetBits bits => bits =? WIFI_FAIL_BIT
  | _ => false
  end.

(** The variables as their initialisers leave them. *)
Definition start : State := mkState 0 0.

End Wifi.

(* ------------------------------------------------------------------ *)
(** ** The application file: the WiFi status panel *)

Module WifiPanel.

(** The fields of [wifi_ap_record_t] the panel reads; [ssid] is the
    whole array. *)
Record wifi_ap_record_t := { ssid : string; rssi : Z }.

(** [sizeof(ap_info.ssid)] in the ESP-IDF header, also the size of the
    local [ssid] array. *)
Definition SSID_SIZE : nat := 33.

Inductive Call :=
| lv_label_set_text_ssid (text : string)
| lv_obj_set_style_bg_color (bar : Z) (color_hex : Z).

Definition GREEN : Z := 0x00FF00.
Definition YELLOW : Z := 0xFFFF00.
Definition ORANGE : Z := 0xFF8800.
Definition GRAY : Z := 0x888888.

(** The number of bars for a signal strength. *)
Definition signal_bars (rssi : Z) : Z :=
  if rssi >=? -55 then 4
  else if rssi >=? -67 then 3
  else if rssi >=? -77 then 2
  else if rssi >=? -87 then 1
  else 0.

(** The body of the loop over the four bars when connected. *)
Definition bar_color (bars i : Z) : Z :=
  if i <? bars then
    if bars >=? 3 then GREEN
    else if bars >=? 2 then YELLOW
    else ORANGE
  else GRAY.

(** [ap_info] is what [esp_wifi_sta_get_ap_info] fills in when it
    returns [ESP_OK], [None] when it fails.  The SSID field is read as
    a C string; the text is the code's for a field that holds a NUL
    within its bytes, as the driver leaves it. *)
Definition update_wifi_status (ap_info : option wifi_ap_record_t) (w : World)
    : World * list Call :=
  let '(locked, w1, _) := lvgl_port_lock 0 w in
  if negb locked then (w1, [])
  else
    let is_connected := match ap_info with Some _ => true | None => false end in
    let rssi := match ap_info with Some ap => rssi ap | None => -100 end in
    let ssid :=
      match ap_info with
      | Some ap => CStr.memcpy (CStr.zeros SSID_SIZE) (ssid ap) SSID_SIZE
      | None => CStr.zeros SSID_SIZE
      end in
    let label :=
      if is_connected
      then lv_label_set_text_ssid
             (CStr.snprintf_fit 50 ("WiFi: " ++ CStr.c_str ssid))
      else lv_label_set_text_ssid "WiFi: Not Connected" in
    let bars :=
      if is_connected
      then map (fun i => lv_obj_set_style_bg_color i (bar_color (signal_bars rssi) i))
               [0; 1; 2; 3]
      else map (fun i => lv_obj_set_style_bg_color i GRAY) [0; 1; 2; 3] in
    (w1, label :: bars).

Definition wifi_update_timer_cb : option wifi_ap_record_t -> World -> World * list Call :=
  update_wifi_status.

Definition lit (c : Call) : bool :=
  match c with
  | lv_obj_set_style_bg_color _ color => negb (color =? GRAY)
  | _ => false
  end.

End WifiPanel.

(** *** Further observations *)

Definition is_esp_log (e : Effect) : bool :=
  match e with
  | esp_log _ _ _ _ => true
  | _ => false
  end.

(** The calls other than log lines. *)
Definition actions (t : list Effect) : list Effect :=
  filter (fun e => negb (is_esp_log e)) t.

Definition is_timer_create (e : Effect) : bool :=
  match e with
  | lv_timer_create _ => true
  | _ => false
  end.

(** The texts written to the countdown label. *)
Definition countdown_texts (t : list Effect) : list string :=
  flat_map (fun e => match e with
                     | lv_label_set_text timer_label text => [text]
                     | _ => []
                     end) t.

(** Whether the next [lvgl_port_lock] succeeds. *)
Definition lock_available (w : World) : bool :=
  match lvgl_lock_script w with
  | false :: _ => false
  | _ => true
  end.

(** A decimal digit, and the text MM:SS of a number of seconds. *)
Definition digit (d : Z) : ascii := ascii_of_nat (48 + Z.to_nat d).

Definition two_digits (z : Z) : string :=
  String (digit (z / 10)) (String (digit (z mod 10)) EmptyString).

Definition clock_text (seconds : Z) : string :=
  (two_digits (seconds / 60) ++ ":" ++ two_digits (seconds mod 60))%string.

Definition is_mqtt_call (e : Effect) : bool :=
  match e with
  | esp_mqtt_client_publish _ _ _ _ _ | esp_mqtt_client_subscribe _ _ => true
  | _ => false
  end.

Definition is_connect_event (e : Event) : bool :=
  match e with
  | EvMqtt _ Mqtt.MQTT_EVENT_CONNECTED => true
  | _ => false
  end.

Definition is_data_event (ev : Mqtt.esp_mqtt_event) : bool :=
  match ev with
  | Mqtt.MQTT_EVENT_DATA _ _ => true
  | _ => false
  end.

(** *** The toggle button on the device *)

(** The application with the one piece of widget state its callbacks
    depend on: whether the toggle button is checked
    ([lv_obj_has_state(obj, LV_STATE_CHECKED)]). *)
Record Device := mkDevice {
  dev_world : World;
  toggle_checked : bool
}.

(** The checked state after the calls of a trace. *)
Fixpoint checked_after (t : list Effect) (checked : bool) : bool :=
  match t with
  | [] => checked
  | lv_obj_add_state toggle_btn LV_STATE_CHECKED :: rest => checked_after rest true
  | lv_obj_clear_state toggle_btn LV_STATE_CHECKED :: rest => checked_after rest false
  | _ :: rest => checked_after rest checked
  end.

(** A handler running on the device. *)
Definition on_device (m : M unit) (d : Device) : Device * list Effect :=
  let '(_, w', t) := m (dev_world d) in
  (mkDevice w' (checked_after t (toggle_checked d)), t).

(** A tap on the button: it is created with [LV_OBJ_FLAG_CHECKABLE], so
    LVGL flips its checked state and then sends
    [LV_EVENT_VALUE_CHANGED]; the callback reads the new state. *)
Definition tap (d : Device) : Device * list Effect :=
  let checked := negb (toggle_checked d) in
  on_device (App.toggle_event_cb App.LV_EVENT_VALUE_CHANGED checked)
            (mkDevice (dev_world d) checked).

(** A message "ON" on the command topic. *)
Definition remote_on : Device -> Device * list Effect :=
  on_device (request_open RemoteCommand).

Definition in_sequence (f g : Device -> Device * list Effect) (d : Device)
    : Device * list Effect :=
  let '(d1, t1) := f d in
  let '(d2, t2) := g d1 in
  (d2, t1 ++ t2).

(** The two orders in which a tap and a remote "ON" can be handled one
    after the other. *)
Definition tap_then_remote_on : Device -> Device * list Effect :=
  in_sequence tap remote_on.

Definition remote_on_then_tap : Device -> Device * list Effect :=
  in_sequence remote_on tap.

(** A closed valve whose counter holds a stale value. *)
Definition closed_17 : World :=
  mkWorld 17 false None true (Some Fn_mqtt_state_callback) [] [].

(** Whether the SSID field holds a NUL within its [SSID_SIZE] bytes, as
    the driver leaves it; [update_wifi_status] reads it as a C string. *)
Definition ssid_terminated (ap : WifiPanel.wifi_ap_record_t) : bool :=
  negb (String.eqb (CStr.c_str (CStr.take WifiPanel.SSID_SIZE (WifiPanel.ssid ap)))
                   (CStr.take WifiPanel.SSID_SIZE (WifiPanel.ssid ap))).

(* ------------------------------------------------------------------ *)
(** ** Proof tools *)

(** Unfold the program down to the monad's primitives. *)
Ltac unfold_program :=
  cbv beta iota zeta delta
    [request_open request_close on_timer_tick handle
     handle_valve_command mqtt_event_handler call_callback
     Mqtt.handle_valve_command Mqtt.mqtt_event_handler
     Mqtt.mqtt_publish_all_relay_states Mqtt.mqtt_publish_relay_state
     Mqtt.publish_discovery_info Mqtt.mqtt_is_connected
     Mqtt.mqtt_register_state_change_callback Mqtt.log_error_if_nonzero
     App.toggle_event_cb App.countdown_timer_cb App.mqtt_state_callback
     App.start_countdown App.stop_countdown App.update_timer_display
     App.lv_event_code_eqb
     ESP_LOGE ESP_LOGW ESP_LOGI ESP_LOGD
     lvgl_port_lock lvgl_port_unlock call_esp_mqtt_client_publish
     bind ret gets modify emit exec effects
     set_seconds_remaining set_timer_running set_countdown_timer
     set_mqtt_connected set_state_change_callback set_lvgl_lock_script
     set_mqtt_msg_id_script
     seconds_remaining timer_running countdown_timer mqtt_connected
     state_change_callback lvgl_lock_script mqtt_msg_id_script
     is_open remaining_seconds timer_armed paused
     fst snd negb andb app] in *.

(** Evaluate a closed test. *)
Ltac has_var t := match t with context [?x] => is_var x end.

Ltac eval_test t :=
  assert_fails (idtac; has_var t);
  let v := eval vm_compute in t in
  match v with
  | true => change t with true
  | false => change t with false
  end.

(** Split on whatever a stuck [match] is waiting for. *)
Ltac split_stuck :=
  match goal with
  | |- context [match ?x with _ => _ end] => is_var x; destruct x
  | |- context [Z.eqb ?a ?b] => eval_test (Z.eqb a b)
  | |- context [Z.ltb ?a ?b] => eval_test (Z.ltb a b)
  | |- context [Z.eqb ?a ?b] => destruct (Z.eqb a b) eqn:?
  | |- context [Z.leb ?a ?b] => destruct (Z.leb a b) eqn:?
  | |- context [Z.ltb ?a ?b] => destruct (Z.ltb a b) eqn:?
  | H : context [match ?x with _ => _ end] |- _ => is_var x; destruct x
  | H : context [Z.leb ?a ?b] |- _ =>
      lazymatch type of H with
      | Z.leb a b = _ => fail
      | _ => destruct (Z.leb a b) eqn:?
      end
  | H : context [Z.eqb ?a ?b] |- _ =>
      lazymatch type of H with
      | Z.eqb a b = _ => fail
      | _ => destruct (Z.eqb a b) eqn:?
      end
  | H : context [Z.ltb ?a ?b] |- _ =>
      lazymatch type of H with
      | Z.ltb a b = _ => fail
      | _ => destruct (Z.ltb a b) eqn:?
      end
  end.

Ltac crunch := unfold_program; repeat (split_stuck; unfold_program).

Lemma int_wrap_small (z : Z) :
  -2147483648 <= z < 2147483648 -> int_wrap z = z.
Proof.
  intros H. unfold int_wrap.
  rewrite Z.mod_small by lia. lia.
Qed.

(** *** The program on concrete inputs *)

Example first_tick_shows_0459 :
  display_calls (effects on_timer_tick (exec (request_open UserToggle) online)) =
  [lv_label_set_text timer_label "04:59"].
Proof. reflexivity. Qed.

Example last_tick_display :
  display_calls
    (effects on_timer_tick (set_seconds_remaining 1 (exec (request_open UserToggle) online))) =
  [lv_label_set_text timer_label "00:00";
   lv_obj_clear_state toggle_btn LV_STATE_CHECKED;
   lv_label_set_text btn_label "Turn Water On";
   lv_label_set_text timer_label "05:00"].
Proof. reflexivity. Qed.

Example lowercase_on_is_unknown :
  handle_valve_command "on" 2 online =
  (tt, online, [esp_log LOG_WARN Mqtt.TAG "Unknown command: %s" [ArgS "on"]]).
Proof. reflexivity. Qed.

Example long_payload_is_cut_at_15 :
  handle_valve_command "OFF0123456789abcdefgh" 21 online =
  (tt, online,
   [esp_log LOG_WARN Mqtt.TAG "Unknown command: %s" [ArgS "OFF0123456789ab"]]).
Proof. reflexivity. Qed.

Example remote_off_without_lock_changes_nothing :
  let w := set_lvgl_lock_script [false] open_50 in
  local_state (exec (request_close RemoteCommand) w) =
  (50, true, Some {| paused := false |}, Some Fn_mqtt_state_callback, []).
Proof. reflexivity. Qed.

Example other_topic_is_ignored :
  exec (mqtt_event_handler "MQTT_EVENTS" (Mqtt.MQTT_EVENT_DATA "water_valve/state" "ON"))
       online = online.
Proof. reflexivity. Qed.

(** *** The invariant of the valve state *)

Lemma ValveInv_handle (e : Event) (w : World) :
  ValveInv w -> ValveInv (exec (handle e) w).
Proof.
  unfold ValveInv. destruct w as [sr tr ct mc cb ls ms].
  destruct e as [code chk| |base ev|cbk|]; [destruct code, chk | | destruct ev | | ];
    crunch; intros (Hr & Ho & Hc);
    try (split; [lia | split; intros; (lia || discriminate || auto)]; fail);
    try (specialize (Ho eq_refl); rewrite int_wrap_small in * by lia;
         split; [lia | split; intros; (lia || discriminate)]; fail);
    try (split; [lia | split; intros; first [lia | discriminate | auto]]).
Qed.

(** *** Sequencing *)

Lemma exec_bind {A B} (m : M A) (k : A -> M B) (w : World) :
  exec (bind m k) w = exec (k (fst (fst (m w)))) (exec m w).
Proof.
  unfold exec, bind. destruct (m w) as [[a w1] t1]. simpl.
  destruct (k a w1) as [[b w2] t2]. reflexivity.
Qed.

Lemma effects_bind {A B} (m : M A) (k : A -> M B) (w : World) :
  effects (bind m k) w = effects m w ++ effects (k (fst (fst (m w)))) (exec m w).
Proof.
  unfold effects, exec, bind. destruct (m w) as [[a w1] t1]. simpl.
  destruct (k a w1) as [[b w2] t2]. reflexivity.
Qed.

Lemma exec_run_cons (e : Event) (evs : list Event) (w : World) :
  exec (run (e :: evs)) w = exec (run evs) (exec (handle e) w).
Proof. simpl. apply exec_bind. Qed.

Lemma exec_ticks_S (n : nat) (w : World) :
  exec (ticks (S n)) w = exec (ticks n) (exec on_timer_tick w).
Proof. simpl. apply exec_bind. Qed.

Lemma effects_ticks_S (n : nat) (w : World) :
  effects (ticks (S n)) w =
  effects on_timer_tick w ++ effects (ticks n) (exec on_timer_tick w).
Proof. simpl. apply effects_bind. Qed.

Lemma ValveInv_run (evs : list Event) (w : World) :
  ValveInv w -> ValveInv (exec (run evs) w).
Proof.
  revert w. induction evs as [|e evs IH]; intros w Hw.
  - exact Hw.
  - rewrite exec_run_cons. apply IH, ValveInv_handle, Hw.
Qed.

Lemma ValveInv_initial (w : World) : initial w -> ValveInv w.
Proof.
  intros (Hs & Hr & _). unfold ValveInv. rewrite Hs, Hr.
  repeat split; (lia || discriminate || auto).
Qed.

Lemma ValveInv_reachable (w : World) : reachable w -> ValveInv w.
Proof.
  intros (w0 & evs & Hi & ->). apply ValveInv_run, ValveInv_initial, Hi.
Qed.

(** *** Reachable states are closed under events and requests *)

Lemma exec_run_app (evs1 evs2 : list Event) : forall w : World,
  exec (run (evs1 ++ evs2)) w = exec (run evs2) (exec (run evs1) w).
Proof.
  induction evs1 as [|e evs1 IH]; intros w.
  - reflexivity.
  - cbn [app]. rewrite !exec_run_cons. apply IH.
Qed.

Lemma reachable_initial (w : World) : initial w -> reachable w.
Proof.
  intros Hi. exists w, []. split; [exact Hi | reflexivity].
Qed.

Lemma reachable_handle (e : Event) (w : World) :
  reachable w -> reachable (exec (handle e) w).
Proof.
  intros (w0 & evs & Hi & ->). exists w0, (evs ++ [e]). split; [exact Hi|].
  rewrite exec_run_app, exec_run_cons. reflexivity.
Qed.

(** A command message reaches [handle_valve_command] with the world
    unchanged. *)
Lemma exec_command_message (base payload : string) (w : World) :
  exec (handle (EvMqtt base (Mqtt.MQTT_EVENT_DATA Mqtt.COMMAND_TOPIC payload))) w =
  exec (handle_valve_command payload (Mqtt.len payload)) w.
Proof.
  unfold handle, mqtt_event_handler, Mqtt.mqtt_event_handler.
  fold handle_valve_command.
  change ((Mqtt.len Mqtt.COMMAND_TOPIC =? CStr.strlen Mqtt.COMMAND_TOPIC)
          && (CStr.strncmp Mqtt.COMMAND_TOPIC Mqtt.COMMAND_TOPIC
                (String.length Mqtt.COMMAND_TOPIC) =? 0)) with true.
  cbv iota. rewrite !exec_bind. reflexivity.
Qed.

Lemma reachable_request (origin : ChangeOrigin) (opening : bool) (w : World) :
  reachable w -> reachable (exec (request origin opening) w).
Proof.
  intros Hr. destruct origin, opening; unfold request, request_open, request_close.
  - apply (reachable_handle (EvToggle App.LV_EVENT_VALUE_CHANGED true)), Hr.
  - apply (reachable_handle (EvToggle App.LV_EVENT_VALUE_CHANGED false)), Hr.
  - change 2 with (Mqtt.len "ON"). rewrite <- (exec_command_message EmptyString).
    apply reachable_handle, Hr.
  - change 3 with (Mqtt.len "OFF"). rewrite <- (exec_command_message EmptyString).
    apply reachable_handle, Hr.
  - exact Hr.
  - apply (reachable_handle EvTick), Hr.
Qed.

(** *** One tick *)

(** A tick on an open valve with more than one second left only counts
    down. *)
Lemma tick_counts_down (w : World) :
  timer_running w = true -> 1 < seconds_remaining w <= 300 ->
  let w' := exec on_timer_tick w in
  seconds_remaining w' = seconds_remaining w - 1 /\
  timer_running w' = true /\
  countdown_timer w' = countdown_timer w /\
  mqtt_connected w' = mqtt_connected w /\
  publishes (effects on_timer_tick w) = [] /\
  timer_calls (effects on_timer_tick w) = [] /\
  toggle_visuals (effects on_timer_tick w) = [].
Proof.
  destruct w as [sr tr ct mc cb ls ms]. intros Ht Hs. unfold_program. subst tr.
  assert (Hw : int_wrap (sr - 1) = sr - 1) by (apply int_wrap_small; lia).
  crunch; rewrite ?Hw in *; try lia; repeat split; reflexivity.
Qed.

(** The tick that takes the countdown to zero closes the valve. *)
Lemma tick_expires (w : World) :
  timer_running w = true -> seconds_remaining w = 1 ->
  let w' := exec on_timer_tick w in
  seconds_remaining w' = 300 /\
  timer_running w' = false /\
  timer_armed w' = false /\
  mqtt_connected w' = mqtt_connected w /\
  state_publishes (effects on_timer_tick w) =
    (if mqtt_connected w then [publish_state false] else []) /\
  publishes (effects on_timer_tick w) = state_publishes (effects on_timer_tick w).
Proof.
  destruct w as [sr tr ct mc cb ls ms]. intros Ht Hs. unfold_program. subst tr sr.
  crunch; try discriminate; repeat split; reflexivity.
Qed.

Lemma ticks_count_down (k : nat) : forall w : World,
  timer_running w = true ->
  Z.of_nat k < seconds_remaining w <= 300 ->
  let w' := exec (ticks k) w in
  seconds_remaining w' = seconds_remaining w - Z.of_nat k /\
  timer_running w' = true /\
  countdown_timer w' = countdown_timer w /\
  mqtt_connected w' = mqtt_connected w /\
  publishes (effects (ticks k) w) = [] /\
  timer_calls (effects (ticks k) w) = [].
Proof.
  induction k as [|k IH]; intros w Ht Hs.
  - cbn. repeat split; first [assumption | reflexivity | lia].
  - destruct (tick_counts_down w Ht ltac:(lia)) as (Hs1 & Ht1 & Hc1 & Hm1 & Hp1 & Hq1 & _).
    destruct (IH (exec on_timer_tick w) Ht1 ltac:(lia)) as (Hs2 & Ht2 & Hc2 & Hm2 & Hp2 & Hq2).
    cbv zeta. rewrite exec_ticks_S, effects_ticks_S.
    unfold publishes, timer_calls in *. rewrite !filter_app.
    rewrite Hs2, Ht2, Hc2, Hm2, Hp1, Hp2, Hq1, Hq2, Hs1, Hc1, Hm1.
    repeat split; first [reflexivity | lia].
Qed.

(** *** The toggle callback *)

Lemma user_open (w : World) :
  let w' := exec (request_open UserToggle) w in
  seconds_remaining w' = 300 /\
  timer_running w' = true /\
  timer_armed w' = true /\
  mqtt_connected w' = mqtt_connected w /\
  state_publishes (effects (request_open UserToggle) w) =
    (if mqtt_connected w then [publish_state true] else []) /\
  publishes (effects (request_open UserToggle) w) =
    state_publishes (effects (request_open UserToggle) w).
Proof.
  destruct w as [sr tr ct mc cb ls ms].
  crunch; repeat split; reflexivity.
Qed.

Lemma user_close (w : World) :
  let w' := exec (request_close UserToggle) w in
  seconds_remaining w' = 300 /\
  timer_running w' = false /\
  timer_armed w' = false /\
  mqtt_connected w' = mqtt_connected w /\
  state_publishes (effects (request_close UserToggle) w) =
    (if mqtt_connected w then [publish_state false] else []) /\
  publishes (effects (request_close UserToggle) w) =
    state_publishes (effects (request_close UserToggle) w).
Proof.
  destruct w as [sr tr ct mc cb ls ms].
  crunch; repeat split; reflexivity.
Qed.

(* ------------------------------------------------------------------ *)
(** ** Countdown *)

(** C5.  In every state the program reaches from power-on, whatever
    events and requests it has handled ([reachable_handle],
    [reachable_request]), the remaining seconds lie in 0..300, are
    positive while the valve is open and equal 300 while it is closed.
    A tick on an open valve takes exactly one second off: the valve
    stays open with one second less, unless that second was the last,
    in which case the valve is closed and the countdown is back at
    300. *)
Theorem countdown_invariant (w : World) :
  reachable w ->
  0 <= remaining_seconds w <= 300 /\
  (is_open w = true -> 0 < remaining_seconds w) /\
  (is_open w = false -> remaining_seconds w = 300) /\
  (is_open w = true ->
   let w' := exec on_timer_tick w in
   (1 < remaining_seconds w ->
    is_open w' = true /\ remaining_seconds w' = remaining_seconds w - 1) /\
   (remaining_seconds w = 1 ->
    is_open w' = false /\ remaining_seconds w' = 300)).
Proof.
  intros Hr. destruct (ValveInv_reachable w Hr) as (Hb & Ho & Hc).
  unfold is_open, remaining_seconds.
  split; [exact Hb | split; [exact Ho | split; [exact Hc |]]].
  intros Hopen. cbv zeta. split.
  - intros Hmore.
    destruct (tick_counts_down w Hopen ltac:(lia)) as (Hs & Ht & _). auto.
  - intros Hlast.
    destruct (tick_expires w Hopen Hlast) as (Hs & Ht & _). auto.
Qed.

Lemma reachable_after_user_open :
  reachable (exec (run [EvToggle App.LV_EVENT_VALUE_CHANGED true]) power_on).
Proof.
  exists power_on, [EvToggle App.LV_EVENT_VALUE_CHANGED true].
  split; [repeat split | reflexivity].
Defined.

Lemma countdown_invariant_witness :
  let w := exec (run [EvToggle App.LV_EVENT_VALUE_CHANGED true]) power_on in
  0 <= remaining_seconds w <= 300 /\
  (is_open w = true -> 0 < remaining_seconds w) /\
  (is_open w = false -> remaining_seconds w = 300) /\
  (is_open w = true ->
   let w' := exec on_timer_tick w in
   (1 < remaining_seconds w ->
    is_open w' = true /\ remaining_seconds w' = remaining_seconds w - 1) /\
   (remaining_seconds w = 1 ->
    is_open w' = false /\ remaining_seconds w' = 300)).
Proof.
  exact (countdown_invariant _ reachable_after_user_open).
Defined.

(** C6, counterexample.  From power-on, with the valve closed and the
    broker not connected, the user toggle opens the valve and publishes
    nothing. *)
Lemma user_open_offline_publishes_nothing :
  is_open booted = false /\
  mqtt_connected booted = false /\
  is_open (exec (request_open UserToggle) booted) = true /\
  remaining_seconds (exec (request_open UserToggle) booted) = 300 /\
  publishes (effects (request_open UserToggle) booted) = [].
Proof.
  vm_compute. repeat split.
Qed.

(** C6, as the code has it.  A user toggle to "on" opens the valve with
    300 seconds left and arms the timer; after [k] ticks, for every [k]
    up to 299, the valve is still open with [300 - k] seconds left, the
    timer is still armed and the ticks have published nothing; the
    300th tick closes the valve, puts the countdown back at 300 and
    pauses the timer.  While the broker is connected the toggle
    publishes "ON" once and the last tick publishes "OFF" once; while
    it is disconnected neither publishes anything. *)
Theorem user_open_full_countdown (w : World) :
  let w1 := exec (request_open UserToggle) w in
  (is_open w1 = true /\ remaining_seconds w1 = 300 /\ timer_armed w1 = true /\
   publishes (effects (request_open UserToggle) w) =
     (if mqtt_connected w then [publish_state true] else [])) /\
  (forall k : nat, (k <= 299)%nat ->
     let wk := exec (ticks k) w1 in
     is_open wk = true /\ remaining_seconds wk = 300 - Z.of_nat k /\
     timer_armed wk = true /\
     publishes (effects (ticks k) w1) = []) /\
  (let w299 := exec (ticks 299) w1 in
   let w300 := exec on_timer_tick w299 in
   remaining_seconds w299 = 1 /\
   is_open w300 = false /\ remaining_seconds w300 = 300 /\
   timer_armed w300 = false /\
   publishes (effects on_timer_tick w299) =
     (if mqtt_connected w then [publish_state false] else [])).
Proof.
  destruct (user_open w) as (Hs & Ht & Ha & Hm & Hp & Hq).
  rewrite Hp in Hq.
  assert (Hk : forall k : nat, (k <= 299)%nat ->
     let wk := exec (ticks k) (exec (request_open UserToggle) w) in
     seconds_remaining wk = 300 - Z.of_nat k /\ timer_running wk = true /\
     timer_armed wk = true /\ mqtt_connected wk = mqtt_connected w /\
     publishes (effects (ticks k) (exec (request_open UserToggle) w)) = []).
  { intros k Hle.
    destruct (ticks_count_down k _ Ht ltac:(rewrite Hs; lia))
      as (Hs' & Ht' & Hc' & Hm' & Hp' & _).
    cbv zeta. rewrite Hs', Ht', Hm', Hp', Hs, Hm.
    unfold timer_armed in *. rewrite Hc'. auto. }
  cbv zeta. unfold is_open, remaining_seconds. split; [|split].
  - auto.
  - intros k Hle. destruct (Hk k Hle) as (? & ? & ? & ? & ?). auto.
  - destruct (Hk 299%nat (le_n _)) as (Hs' & Ht' & _ & Hm' & _).
    change (300 - Z.of_nat 299) with 1 in Hs'.
    destruct (tick_expires _ Ht' Hs') as (Hs2 & Ht2 & Ha2 & _ & Hp2 & Hq2).
    rewrite Hm' in Hp2. rewrite Hp2 in Hq2. auto.
Qed.

Lemma user_open_full_countdown_witness :
  let w1 := exec (request_open UserToggle) online in
  (is_open w1 = true /\ remaining_seconds w1 = 300 /\ timer_armed w1 = true /\
   publishes (effects (request_open UserToggle) online) = [publish_state true]) /\
  (forall k : nat, (k <= 299)%nat ->
     let wk := exec (ticks k) w1 in
     is_open wk = true /\ remaining_seconds wk = 300 - Z.of_nat k /\
     timer_armed wk = true /\
     publishes (effects (ticks k) w1) = []) /\
  (let w299 := exec (ticks 299) w1 in
   let w300 := exec on_timer_tick w299 in
   remaining_seconds w299 = 1 /\
   is_open w300 = false /\ remaining_seconds w300 = 300 /\
   timer_armed w300 = false /\
   publishes (effects on_timer_tick w299) = [publish_state false]).
Proof.
  exact (user_open_full_countdown online).
Defined.

(** *** Remote commands *)

Lemma remote_open (w : World) :
  state_change_callback w = Some Fn_mqtt_state_callback ->
  lvgl_lock_script w = [] ->
  let w' := exec (request_open RemoteCommand) w in
  timer_running w' = true /\
  seconds_remaining w' = (if timer_running w then seconds_remaining w else 300) /\
  (timer_running w = false -> timer_armed w' = true) /\
  (timer_running w = true -> countdown_timer w' = countdown_timer w) /\
  mqtt_connected w' = mqtt_connected w /\
  state_change_callback w' = state_change_callback w /\
  lvgl_lock_script w' = [].
Proof.
  destruct w as [sr tr ct mc cb ls ms]. unfold_program. intros -> ->.
  crunch; repeat split; intros; first [reflexivity | discriminate].
Qed.

Lemma remote_close (w : World) :
  state_change_callback w = Some Fn_mqtt_state_callback ->
  lvgl_lock_script w = [] ->
  let w' := exec (request_close RemoteCommand) w in
  timer_running w' = false /\
  seconds_remaining w' = (if timer_running w then 300 else seconds_remaining w) /\
  (timer_running w = true -> timer_armed w' = false) /\
  (timer_running w = false -> countdown_timer w' = countdown_timer w) /\
  mqtt_connected w' = mqtt_connected w /\
  state_change_callback w' = state_change_callback w /\
  lvgl_lock_script w' = [].
Proof.
  destruct w as [sr tr ct mc cb ls ms]. unfold_program. intros -> ->.
  crunch; repeat split; intros; first [reflexivity | discriminate].
Qed.

Lemma remote_publishes (state : bool) (w : World) :
  state_publishes
    (effects (if state then request_open RemoteCommand
              else request_close RemoteCommand) w) =
  (if mqtt_connected w then [publish_state state] else []).
Proof.
  destruct w as [sr tr ct mc cb ls ms].
  destruct state; crunch; reflexivity.
Qed.

(* ------------------------------------------------------------------ *)
(** ** Reset of the countdown *)

(** C7.  Closing an open valve leaves the countdown at 300 whatever the
    origin and whatever the counter held, and so does any close
    request in a state that satisfies the invariant; opening a closed
    valve leaves the countdown at 300 whatever the origin and whatever
    the counter held before.  The requests do take effect: a user
    toggle always closes, respectively opens, the valve and stores
    300; a remote command does so once the callback is registered and
    the display lock is acquired; the timer closes the valve on the
    tick that finds one second left. *)
Theorem countdown_reset_on_close_and_open (w : World) :
  (forall origin,
     is_open w = true ->
     is_open (exec (request_close origin) w) = false ->
     remaining_seconds (exec (request_close origin) w) = 300) /\
  (forall origin,
     ValveInv w ->
     is_open (exec (request_close origin) w) = false ->
     remaining_seconds (exec (request_close origin) w) = 300) /\
  (forall origin,
     is_open w = false ->
     is_open (exec (request_open origin) w) = true ->
     remaining_seconds (exec (request_open origin) w) = 300) /\
  (is_open (exec (request_close UserToggle) w) = false /\
   remaining_seconds (exec (request_close UserToggle) w) = 300 /\
   is_open (exec (request_open UserToggle) w) = true /\
   remaining_seconds (exec (request_open UserToggle) w) = 300) /\
  (state_change_callback w = Some Fn_mqtt_state_callback ->
   lvgl_lock_script w = [] ->
   is_open (exec (request_close RemoteCommand) w) = false /\
   (is_open w = true -> remaining_seconds (exec (request_close RemoteCommand) w) = 300) /\
   is_open (exec (request_open RemoteCommand) w) = true /\
   (is_open w = false -> remaining_seconds (exec (request_open RemoteCommand) w) = 300)) /\
  (is_open w = true -> remaining_seconds w = 1 ->
   is_open (exec (request_close TimerExpiry) w) = false /\
   remaining_seconds (exec (request_close TimerExpiry) w) = 300).
Proof.
  unfold is_open, remaining_seconds.
  split; [|split; [|split; [|split; [|split]]]].
  - intros origin Ho Hc. destruct origin.
    + apply user_close.
    + revert Ho Hc. destruct w as [sr tr ct mc cb ls ms].
      crunch; intros; first [reflexivity | discriminate | congruence].
    + revert Ho Hc. destruct w as [sr tr ct mc cb ls ms].
      crunch; intros; first [reflexivity | discriminate | congruence].
  - intros origin Hinv Hc.
    assert (Hinv' : ValveInv (exec (request_close origin) w)).
    { destruct origin.
      + apply (ValveInv_handle (EvToggle App.LV_EVENT_VALUE_CHANGED false)), Hinv.
      + apply (ValveInv_handle (EvMqtt EmptyString
                 (Mqtt.MQTT_EVENT_DATA Mqtt.COMMAND_TOPIC "OFF"))) in Hinv.
        revert Hinv. destruct w as [sr tr ct mc cb ls ms]. crunch; auto.
      + apply (ValveInv_handle EvTick), Hinv. }
    destruct Hinv' as (_ & _ & H300). auto.
  - intros origin Hc Ho. destruct origin.
    + apply user_open.
    + revert Hc Ho. destruct w as [sr tr ct mc cb ls ms].
      crunch; intros; first [reflexivity | discriminate | congruence].
    + revert Hc Ho. destruct w as [sr tr ct mc cb ls ms]. crunch. congruence.
  - destruct (user_close w) as (Hs & Ht & _). destruct (user_open w) as (Hs' & Ht' & _).
    auto.
  - intros Hcb Hls.
    destruct (remote_close w Hcb Hls) as (Ht & Hs & _).
    destruct (remote_open w Hcb Hls) as (Ht' & Hs' & _).
    repeat split; auto.
    + intros Ho. rewrite Hs, Ho. reflexivity.
    + intros Hc. rewrite Hs', Hc. reflexivity.
  - intros Ho H1. destruct (tick_expires w Ho H1) as (Hs & Ht & _). auto.
Qed.

Lemma countdown_reset_on_close_and_open_witness :
  remaining_seconds (exec (request_close UserToggle) open_50) = 300 /\
  remaining_seconds (exec (request_close RemoteCommand) open_50) = 300 /\
  is_open (exec (request_close RemoteCommand) open_50) = false /\
  remaining_seconds (exec (request_open UserToggle) closed_17) = 300 /\
  remaining_seconds (exec (request_open RemoteCommand) closed_17) = 300 /\
  is_open (exec (request_open RemoteCommand) closed_17) = true /\
  remaining_seconds (exec (request_open RemoteCommand) online) = 300.
Proof.
  destruct (countdown_reset_on_close_and_open open_50)
    as (Hclose & _ & _ & _ & Hremote & _).
  destruct (countdown_reset_on_close_and_open closed_17)
    as (_ & _ & Hopen & _ & Hremote' & _).
  destruct (countdown_reset_on_close_and_open online) as (_ & _ & Hopen' & _).
  destruct (Hremote eq_refl eq_refl) as (Hc & _).
  destruct (Hremote' eq_refl eq_refl) as (_ & _ & Ho & _).
  split; [apply (Hclose UserToggle); reflexivity|].
  split; [apply (Hclose RemoteCommand); reflexivity|].
  split; [exact Hc|].
  split; [apply (Hopen UserToggle); reflexivity|].
  split; [apply (Hopen RemoteCommand); reflexivity|].
  split; [exact Ho|].
  apply (Hopen' RemoteCommand); reflexivity.
Defined.

(* ------------------------------------------------------------------ *)
(** ** Disconnected operation *)

(** C9.  A request made while the broker is disconnected publishes
    nothing, stays disconnected, and otherwise does exactly what the
    same request does while connected: same valve state, same timer
    handle, same calls to the display and to the timer.  And the valve
    does change state: a user toggle opens, respectively closes, it,
    stores 300 and arms, respectively disarms, the timer; a remote
    command opens or closes it and sets the toggle, once the callback
    is registered and the display lock is acquired; the tick that finds
    one second left closes it, and clears the toggle when it gets the
    display lock. *)
Theorem disconnected_request_is_local (origin : ChangeOrigin) (opening : bool)
    (w : World) :
  let offline_w := set_mqtt_connected false w in
  let online_w := set_mqtt_connected true w in
  (publishes (effects (request origin opening) offline_w) = [] /\
   mqtt_connected (exec (request origin opening) offline_w) = false /\
   local_state (exec (request origin opening) offline_w) =
     local_state (exec (request origin opening) online_w) /\
   local_calls (effects (request origin opening) offline_w) =
     local_calls (effects (request origin opening) online_w)) /\
  (is_open (exec (request UserToggle opening) offline_w) = opening /\
   remaining_seconds (exec (request UserToggle opening) offline_w) = 300 /\
   timer_armed (exec (request UserToggle opening) offline_w) = opening) /\
  (state_change_callback w = Some Fn_mqtt_state_callback ->
   lvgl_lock_script w = [] ->
   is_open (exec (request RemoteCommand opening) offline_w) = opening /\
   (is_open w = negb opening ->
    remaining_seconds (exec (request RemoteCommand opening) offline_w) = 300 /\
    timer_armed (exec (request RemoteCommand opening) offline_w) = opening) /\
   toggle_visuals (effects (request RemoteCommand opening) offline_w) =
     [if opening then lv_obj_add_state toggle_btn LV_STATE_CHECKED
      else lv_obj_clear_state toggle_btn LV_STATE_CHECKED]) /\
  (is_open w = true -> remaining_seconds w = 1 ->
   is_open (exec (request_close TimerExpiry) offline_w) = false /\
   remaining_seconds (exec (request_close TimerExpiry) offline_w) = 300 /\
   timer_armed (exec (request_close TimerExpiry) offline_w) = false /\
   (lvgl_lock_script w = [] ->
    toggle_visuals (effects (request_close TimerExpiry) offline_w) =
      [lv_obj_clear_state toggle_btn LV_STATE_CHECKED])).
Proof.
  cbv zeta. split; [|split; [|split]].
  - destruct w as [sr tr ct mc cb ls ms].
    unfold request, local_state.
    destruct origin, opening; crunch; repeat split; reflexivity.
  - unfold request, is_open, remaining_seconds. destruct opening.
    + destruct (user_open (set_mqtt_connected false w)) as (Hs & Ht & Ha & _). auto.
    + destruct (user_close (set_mqtt_connected false w)) as (Hs & Ht & Ha & _). auto.
  - destruct w as [sr tr ct mc cb ls ms]. unfold request. unfold_program.
    intros -> ->. destruct opening; crunch;
      repeat split; intros; first [reflexivity | discriminate].
  - destruct w as [sr tr ct mc cb ls ms]. unfold_program. intros -> ->.
    crunch; try discriminate; repeat split; intros; first [reflexivity | discriminate].
Qed.

Lemma disconnected_request_is_local_witness :
  is_open (exec (request UserToggle true) booted) = true /\
  publishes (effects (request UserToggle true) booted) = [] /\
  is_open (exec (request RemoteCommand true) booted) = true /\
  remaining_seconds (exec (request RemoteCommand true) booted) = 300 /\
  is_open (exec (request_close TimerExpiry)
             (set_mqtt_connected false (set_seconds_remaining 1 open_50))) = false.
Proof.
  destruct (disconnected_request_is_local UserToggle true booted)
    as ((Hp & _) & (Ho & _) & _).
  destruct (disconnected_request_is_local RemoteCommand true booted)
    as (_ & _ & Hr & _).
  destruct (disconnected_request_is_local TimerExpiry false
              (set_seconds_remaining 1 open_50)) as (_ & _ & _ & Ht).
  destruct (Hr eq_refl eq_refl) as (Hro & Hrs & _).
  destruct (Hrs eq_refl) as (Hr300 & _).
  destruct (Ht eq_refl eq_refl) as (Htc & _).
  exact (conj Ho (conj Hp (conj Hro (conj Hr300 Htc)))).
Defined.

(* ------------------------------------------------------------------ *)
(** ** Which origin publishes, which touches the toggle *)

(** C1, counterexample.  A remote "ON" on a closed valve, broker
    connected: the valve opens and the new state is published to the
    state topic. *)
Lemma remote_transition_is_published :
  is_open online = false /\
  is_open (exec (request_open RemoteCommand) online) = true /\
  state_publishes (effects (request_open RemoteCommand) online) =
    [publish_state true] /\
  state_publishes (effects (request_open RemoteCommand) online) <> [].
Proof.
  vm_compute. repeat split; discriminate.
Qed.

(** C1, as the code has it.  While the broker is connected, every
    request publishes the requested state, retained, to the state topic:
    a remote command publishes it as its confirmation, a user toggle
    and the expiring tick publish it as their announcement (a tick that
    does not expire publishes nothing).  The toggle callback never sets
    or clears the checked state of the toggle button. *)
Theorem origin_side_effects (w : World) :
  mqtt_connected w = true ->
  (forall opening : bool,
     state_publishes (effects (request RemoteCommand opening) w) =
       [publish_state opening]) /\
  (forall opening : bool,
     state_publishes (effects (request UserToggle opening) w) =
       [publish_state opening]) /\
  state_publishes (effects (request_close TimerExpiry) w) =
    (if timer_running w && (int_wrap (seconds_remaining w - 1) <=? 0)
     then [publish_state false] else []) /\
  (forall code is_checked,
     toggle_visuals (effects (App.toggle_event_cb code is_checked) w) = []).
Proof.
  intros Hc. split; [|split; [|split]].
  - intros opening. unfold request. rewrite remote_publishes, Hc. reflexivity.
  - intros [|]; unfold request.
    + destruct (user_open w) as (_ & _ & _ & _ & Hp & _). rewrite Hp, Hc. reflexivity.
    + destruct (user_close w) as (_ & _ & _ & _ & Hp & _). rewrite Hp, Hc. reflexivity.
  - revert Hc. destruct w as [sr tr ct mc cb ls ms]. unfold_program. intros ->.
    crunch; reflexivity.
  - intros code chk. destruct w as [sr tr ct mc cb ls ms].
    destruct code, chk; crunch; reflexivity.
Qed.

Lemma origin_side_effects_witness :
  state_publishes (effects (request RemoteCommand true) online) = [publish_state true] /\
  state_publishes (effects (request UserToggle false) online) = [publish_state false] /\
  toggle_visuals (effects (App.toggle_event_cb App.LV_EVENT_VALUE_CHANGED true) online) = [].
Proof.
  destruct (origin_side_effects online eq_refl) as (Hr & Hu & _ & Ht).
  split; [apply Hr | split; [apply Hu | apply Ht]].
Defined.

(* ------------------------------------------------------------------ *)
(** ** Duplicate requests *)

(** C2, counterexample.  A second remote "ON" on the open valve is
    published again and the toggle and its label are written again. *)
Lemma duplicate_remote_on_republishes :
  is_open remotely_opened = true /\
  state_publishes (effects (request_open RemoteCommand) remotely_opened) =
    [publish_state true] /\
  display_calls (effects (request_open RemoteCommand) remotely_opened) =
    [lv_obj_add_state toggle_btn LV_STATE_CHECKED;
     lv_label_set_text btn_label "Turn Water Off"].
Proof.
  vm_compute. repeat split.
Qed.

(** C2, as the code has it.  A remote "ON" for an open valve, and a
    remote "OFF" for a closed one, leave the valve state, the remaining
    seconds and the timer as they are, make no call to the timer and do
    not rewrite the countdown text; they still publish their
    confirmation while connected, and with the callback registered and
    the display lock acquired they set the toggle and its label again.
    The toggle callback has no such guard: checked, it starts the
    countdown at 300 again and publishes "ON"; unchecked, it leaves a
    closed valve closed at 300 and publishes "OFF". *)
Theorem duplicate_request_effects (w : World) :
  (is_open w = true ->
   let w' := exec (request_open RemoteCommand) w in
   is_open w' = true /\ remaining_seconds w' = remaining_seconds w /\
   countdown_timer w' = countdown_timer w /\
   timer_calls (effects (request_open RemoteCommand) w) = [] /\
   filter is_countdown_text (effects (request_open RemoteCommand) w) = [] /\
   state_publishes (effects (request_open RemoteCommand) w) =
     (if mqtt_connected w then [publish_state true] else []) /\
   (state_change_callback w = Some Fn_mqtt_state_callback ->
    lvgl_lock_script w = [] ->
    display_calls (effects (request_open RemoteCommand) w) =
      [lv_obj_add_state toggle_btn LV_STATE_CHECKED;
       lv_label_set_text btn_label "Turn Water Off"])) /\
  (is_open w = false ->
   let w' := exec (request_close RemoteCommand) w in
   is_open w' = false /\ remaining_seconds w' = remaining_seconds w /\
   countdown_timer w' = countdown_timer w /\
   timer_calls (effects (request_close RemoteCommand) w) = [] /\
   filter is_countdown_text (effects (request_close RemoteCommand) w) = [] /\
   state_publishes (effects (request_close RemoteCommand) w) =
     (if mqtt_connected w then [publish_state false] else []) /\
   (state_change_callback w = Some Fn_mqtt_state_callback ->
    lvgl_lock_script w = [] ->
    display_calls (effects (request_close RemoteCommand) w) =
      [lv_obj_clear_state toggle_btn LV_STATE_CHECKED;
       lv_label_set_text btn_label "Turn Water On"])) /\
  (let w' := exec (request_open UserToggle) w in
   is_open w' = true /\ remaining_seconds w' = 300 /\
   state_publishes (effects (request_open UserToggle) w) =
     (if mqtt_connected w then [publish_state true] else [])) /\
  (let w' := exec (request_close UserToggle) w in
   is_open w' = false /\ remaining_seconds w' = 300 /\
   state_publishes (effects (request_close UserToggle) w) =
     (if mqtt_connected w then [publish_state false] else [])).
Proof.
  split; [|split; [|split]].
  - destruct w as [sr tr ct mc cb ls ms]. unfold_program. intros ->.
    crunch; repeat split; intros; first [reflexivity | discriminate].
  - destruct w as [sr tr ct mc cb ls ms]. unfold_program. intros ->.
    crunch; repeat split; intros; first [reflexivity | discriminate].
  - destruct (user_open w) as (Hs & Ht & _ & _ & Hp & _). cbv zeta.
    unfold is_open, remaining_seconds. auto.
  - destruct (user_close w) as (Hs & Ht & _ & _ & Hp & _). cbv zeta.
    unfold is_open, remaining_seconds. auto.
Qed.

Lemma duplicate_request_effects_witness :
  remaining_seconds (exec (request_open RemoteCommand) open_50) = 50 /\
  timer_calls (effects (request_open RemoteCommand) open_50) = [] /\
  state_publishes (effects (request_open RemoteCommand) open_50) =
    [publish_state true] /\
  display_calls (effects (request_open RemoteCommand) open_50) =
    [lv_obj_add_state toggle_btn LV_STATE_CHECKED;
     lv_label_set_text btn_label "Turn Water Off"] /\
  remaining_seconds (exec (request_close RemoteCommand) online) = 300 /\
  timer_calls (effects (request_close RemoteCommand) online) = [].
Proof.
  destruct (duplicate_request_effects open_50) as (Hopen & _).
  destruct (duplicate_request_effects online) as (_ & Hclosed & _).
  destruct (Hopen eq_refl) as (_ & Hr & _ & Ht & _ & Hp & Hd).
  destruct (Hclosed eq_refl) as (_ & Hr' & _ & Ht' & _).
  repeat split; auto.
Defined.

(* ------------------------------------------------------------------ *)
(** ** What is published, and when *)

Lemma code_inj (a b : ascii) : CStr.code a = CStr.code b -> a = b.
Proof.
  unfold CStr.code. intros H. apply N2Z.inj in H.
  rewrite <- (ascii_N_embedding a), <- (ascii_N_embedding b). now rewrite H.
Qed.

Lemma code_diff (a b : ascii) : a <> b -> CStr.code a - CStr.code b <> 0.
Proof.
  intros Hne H. apply Hne, code_inj. lia.
Qed.

(** On a topic of the right length, [strncmp] against a literal without
    NUL decides equality. *)
Lemma strncmp_literal (b : string) : forall a : string,
  CStr.c_str b = b -> String.length a = String.length b ->
  CStr.strncmp a b (String.length a) = 0 -> a = b.
Proof.
  induction b as [|cb rb IH]; intros [|ca ra] Hb Hl H; try discriminate.
  - reflexivity.
  - simpl in *. destruct (Ascii.eqb_spec cb CStr.NUL) as [|Hnul]; [discriminate|].
    injection Hb as Hb. injection Hl as Hl.
    destruct (Ascii.eqb_spec ca cb) as [->|Hne].
    + destruct (Ascii.eqb_spec cb CStr.NUL); [contradiction|].
      f_equal. apply IH; assumption.
    + apply code_diff in Hne. contradiction.
Qed.

Lemma command_topic_test (topic : string) :
  (Mqtt.len topic =? CStr.strlen Mqtt.COMMAND_TOPIC)
  && (CStr.strncmp topic Mqtt.COMMAND_TOPIC (String.length topic) =? 0) = true ->
  topic = Mqtt.COMMAND_TOPIC.
Proof.
  intros H. apply andb_prop in H. destruct H as (Hl & Hc).
  apply Z.eqb_eq in Hl, Hc. apply strncmp_literal.
  - reflexivity.
  - unfold Mqtt.len, CStr.strlen in Hl. apply Nat2Z.inj in Hl. exact Hl.
  - exact Hc.
Qed.

(** C3, counterexample.  On connection to the broker the handler itself
    publishes to the state topic, with no request and no change of the
    valve. *)
Lemma connect_publishes_state :
  let connect := mqtt_event_handler "MQTT_EVENTS" Mqtt.MQTT_EVENT_CONNECTED in
  local_state (exec connect booted) = local_state booted /\
  state_publishes (effects connect booted) = [publish_state false] /\
  state_publishes (effects connect booted) <> [].
Proof.
  vm_compute. repeat split; discriminate.
Qed.

(** C3, as the code has it.  On connection the handler publishes, in
    this order, the availability "online", the discovery document and a
    retained message on the state topic.  Any event publishes at most
    one message to the state topic, does so only while connected, and
    only if it is the connection itself, a value change of the toggle,
    a message on the command topic, the expiring tick or a call of
    [mqtt_publish_all_relay_states]; nothing is kept for later. *)
Theorem state_publish_triggers :
  (forall base w, exists data,
     publishes (effects (mqtt_event_handler base Mqtt.MQTT_EVENT_CONNECTED) w) =
       [esp_mqtt_client_publish Mqtt.AVAILABILITY_TOPIC "online" 0 1 1;
        esp_mqtt_client_publish Mqtt.DISCOVERY_TOPIC Mqtt.discovery_message 0 1 1;
        esp_mqtt_client_publish Mqtt.STATE_TOPIC data 0 1 1]) /\
  (forall e w,
     state_publishes (effects (handle e) w) = [] \/
     (announcing e w = true /\
      mqtt_connected (exec (handle e) w) = true /\
      exists state, state_publishes (effects (handle e) w) = [publish_state state])).
Proof.
  split.
  - intros base w. exists "OFF"%string. destruct w as [sr tr ct mc cb ls ms].
    crunch; reflexivity.
  - intros e w. destruct w as [sr tr ct mc cb ls ms].
    destruct e as [code chk| |base ev|cbk|].
    + destruct code, chk; crunch;
        first [left; reflexivity
              | right; repeat split; eexists; reflexivity].
    + unfold announcing. crunch;
        first [left; reflexivity
              | right; repeat split; eexists; reflexivity].
    + destruct ev as [tcp e1 e2 e3 txt| | |id|id|id|topic data|id];
        try (crunch; first [left; reflexivity
                           | right; repeat split; eexists; reflexivity]).
      unfold announcing.
      destruct ((Mqtt.len topic =? CStr.strlen Mqtt.COMMAND_TOPIC)
                && (CStr.strncmp topic Mqtt.COMMAND_TOPIC (String.length topic) =? 0))
        eqn:Htest.
      * apply command_topic_test in Htest. subst topic.
        crunch; first [left; reflexivity
                      | right; repeat split; eexists; reflexivity].
      * left. unfold handle, mqtt_event_handler, Mqtt.mqtt_event_handler.
        unfold effects, bind. simpl. rewrite Htest. reflexivity.
    + left. reflexivity.
    + crunch; first [left; reflexivity
                    | right; repeat split; eexists; reflexivity].
Qed.

(** C4.  Whatever the valve state, the connection handler publishes the
    literal "OFF" to the state topic, and so does
    [mqtt_publish_all_relay_states] whenever it publishes (that is,
    while connected).  Hence the program reaches a state in which the
    valve is open while the payload retained on the state topic is
    "OFF": open the valve by the toggle while connected, lose the
    connection, reconnect. *)
Theorem connect_publishes_OFF_unconditionally :
  (forall base w,
     state_publishes (effects (mqtt_event_handler base Mqtt.MQTT_EVENT_CONNECTED) w) =
       [publish_state false]) /\
  (forall w,
     state_publishes (effects Mqtt.mqtt_publish_all_relay_states w) =
       (if mqtt_connected w then [publish_state false] else [])) /\
  (exists w0 evs,
     initial w0 /\
     is_open (exec (run evs) w0) = true /\
     retained_state (effects (run evs) w0) = Some "OFF"%string).
Proof.
  split; [|split].
  - intros base w. destruct w as [sr tr ct mc cb ls ms]. crunch; reflexivity.
  - intros w. destruct w as [sr tr ct mc cb ls ms]. crunch; reflexivity.
  - exists power_on,
      [EvMqtt "MQTT_EVENTS" Mqtt.MQTT_EVENT_CONNECTED;
       EvToggle App.LV_EVENT_VALUE_CHANGED true;
       EvMqtt "MQTT_EVENTS" Mqtt.MQTT_EVENT_DISCONNECTED;
       EvMqtt "MQTT_EVENTS" Mqtt.MQTT_EVENT_CONNECTED].
    split; [repeat split | split; vm_compute; reflexivity].
Qed.

(* ------------------------------------------------------------------ *)
(** ** Two opens at once *)

(** C10, counterexample.  On a connected device with the valve closed
    and the toggle unchecked: when the tap is handled first, two "ON"
    messages go to the state topic; when the remote "ON" is handled
    first, it checks the toggle, the tap unchecks it, and the valve
    ends closed. *)
Lemma two_opens_publish_twice_or_close :
  is_open online = false /\
  state_publishes (snd (tap_then_remote_on (mkDevice online false))) =
    [publish_state true; publish_state true] /\
  is_open (dev_world (fst (remote_on_then_tap (mkDevice online false)))) = false /\
  state_publishes (snd (remote_on_then_tap (mkDevice online false))) =
    [publish_state true; publish_state false].
Proof.
  vm_compute. repeat split.
Qed.

(** C10, as the code has it.  With the callback registered, the display
    lock acquired and the toggle unchecked, when a tap and a remote
    "ON" are handled one after the other: if the tap comes first, the
    valve ends open with 300 seconds left, the timer armed and the
    toggle checked, and while connected each handler publishes its own
    "ON"; if the remote "ON" comes first, it checks the toggle, so the
    tap unchecks it and closes the valve: it ends closed with 300
    seconds left, the timer paused and the toggle unchecked, and while
    connected "ON" and then "OFF" are published.  While disconnected
    nothing is published in either order. *)
Theorem two_opens_in_sequence (w : World) :
  state_change_callback w = Some Fn_mqtt_state_callback ->
  lvgl_lock_script w = [] ->
  (let '(d, t) := tap_then_remote_on (mkDevice w false) in
   is_open (dev_world d) = true /\
   remaining_seconds (dev_world d) = 300 /\
   timer_armed (dev_world d) = true /\
   toggle_checked d = true /\
   state_publishes t =
     (if mqtt_connected w then [publish_state true; publish_state true] else [])) /\
  (let '(d, t) := remote_on_then_tap (mkDevice w false) in
   is_open (dev_world d) = false /\
   remaining_seconds (dev_world d) = 300 /\
   timer_armed (dev_world d) = false /\
   toggle_checked d = false /\
   state_publishes t =
     (if mqtt_connected w then [publish_state true; publish_state false] else [])).
Proof.
  destruct w as [sr tr ct mc cb ls ms].
  cbn [state_change_callback lvgl_lock_script mqtt_connected]. intros -> ->.
  unfold tap_then_remote_on, remote_on_then_tap, in_sequence, tap, remote_on, on_device.
  split;
    repeat (progress (cbv beta iota zeta delta
                        [dev_world toggle_checked checked_after negb]; crunch));
    repeat split; reflexivity.
Qed.

Lemma two_opens_in_sequence_witness :
  is_open (dev_world (fst (tap_then_remote_on (mkDevice online false)))) = true /\
  state_publishes (snd (tap_then_remote_on (mkDevice online false))) =
    [publish_state true; publish_state true] /\
  is_open (dev_world (fst (remote_on_then_tap (mkDevice online false)))) = false /\
  toggle_checked (fst (remote_on_then_tap (mkDevice online false))) = false.
Proof.
  destruct (two_opens_in_sequence online eq_refl eq_refl) as (H1 & H2).
  destruct (tap_then_remote_on (mkDevice online false)) as [d1 t1].
  destruct (remote_on_then_tap (mkDevice online false)) as [d2 t2].
  destruct H1 as (Ho & _ & _ & _ & Hp). destruct H2 as (Hc & _ & _ & Hu & _).
  exact (conj Ho (conj Hp (conj Hc Hu))).
Defined.

(* ------------------------------------------------------------------ *)
(** ** Command payloads *)

(** *** Payloads without NUL *)

Lemma strcmp_zero (b : string) : forall a : string,
  CStr.c_str b = b -> (CStr.strcmp a b = 0 <-> CStr.c_str a = b).
Proof.
  induction b as [|cb rb IH]; intros [|ca ra] Hb; simpl in *.
  - split; reflexivity.
  - destruct (Ascii.eqb_spec ca CStr.NUL) as [->|Hne].
    + split; reflexivity.
    + split; [|discriminate]. intros H. exfalso.
      apply (code_diff ca CStr.NUL Hne). exact H.
  - destruct (Ascii.eqb_spec cb CStr.NUL) as [|Hnul]; [discriminate|].
    split; [|discriminate]. intros H. exfalso.
    apply (code_diff cb CStr.NUL Hnul). change (CStr.code CStr.NUL) with 0. lia.
  - destruct (Ascii.eqb_spec cb CStr.NUL) as [|Hnul]; [discriminate|].
    injection Hb as Hb.
    destruct (Ascii.eqb_spec ca cb) as [->|Hne].
    + destruct (Ascii.eqb_spec cb CStr.NUL); [contradiction|].
      rewrite (IH ra Hb). split; [intros ->; reflexivity | intros H; now injection H].
    + split.
      * intros H. exfalso. apply (code_diff ca cb Hne). exact H.
      * destruct (Ascii.eqb_spec ca CStr.NUL); [discriminate|].
        intros H. injection H as H _. contradiction.
Qed.

Lemma c_str_app_zeros (k : nat) : forall s : string,
  CStr.c_str (s ++ CStr.zeros k) = CStr.c_str s.
Proof.
  induction s as [|c r IH]; simpl.
  - destruct k; reflexivity.
  - rewrite IH. reflexivity.
Qed.

Lemma drop_zeros (n : nat) : forall m : nat,
  CStr.drop n (CStr.zeros m) = CStr.zeros (m - n).
Proof.
  induction n as [|n IH]; intros [|m]; simpl; auto.
Qed.

Lemma take_all (s : string) : forall n : nat,
  (String.length s <= n)%nat -> CStr.take n s = s.
Proof.
  induction s as [|c r IH]; intros [|n] H; simpl in *; try reflexivity; try lia.
  rewrite IH by lia. reflexivity.
Qed.

Lemma c_str_take (n : nat) : forall s : string,
  CStr.c_str s = s -> CStr.c_str (CStr.take n s) = CStr.take n s.
Proof.
  induction n as [|n IH]; intros [|c r] H; simpl in *; try reflexivity.
  destruct (Ascii.eqb_spec c CStr.NUL); [discriminate|].
  injection H as H. rewrite IH by assumption. reflexivity.
Qed.

Lemma take_short (n : nat) : forall s t : string,
  CStr.take n s = t -> (String.length t < n)%nat -> s = t.
Proof.
  induction n as [|n IH]; intros s t H Hl; [lia|].
  destruct s as [|c r]; simpl in H; [exact H|].
  destruct t as [|c' r']; [discriminate|].
  injection H as -> H. simpl in Hl. f_equal. apply IH; [exact H | lia].
Qed.

(** What [handle_valve_command] compares with "ON" and "OFF": the C
    string in the first 15 bytes of the payload. *)
Lemma command_buffer (payload : string) :
  Mqtt.len payload < 4294967296 ->
  CStr.c_str
    (if to_size_t (Mqtt.len payload) <? 16 - 1
     then CStr.memcpy (CStr.zeros 16) payload (Z.to_nat (Mqtt.len payload))
     else CStr.memcpy (CStr.zeros 16) payload (16 - 1)) =
  CStr.c_str (CStr.take 15 payload).
Proof.
  intros Hlen. unfold to_size_t, Mqtt.len in *.
  rewrite Z.mod_small by lia. unfold CStr.memcpy. rewrite !drop_zeros.
  destruct (Z.ltb_spec (Z.of_nat (String.length payload)) (16 - 1)) as [Hlt|Hge].
  - rewrite Nat2Z.id, c_str_app_zeros.
    rewrite !take_all by lia. reflexivity.
  - rewrite c_str_app_zeros. reflexivity.
Qed.

(** A payload that neither reads "ON" nor "OFF" is answered with the
    warning and nothing else. *)
Lemma unknown_command_dropped (payload : string) (w : World) :
  Mqtt.len payload < 4294967296 ->
  CStr.c_str (CStr.take 15 payload) <> "ON"%string ->
  CStr.c_str (CStr.take 15 payload) <> "OFF"%string ->
  handle_valve_command payload (Mqtt.len payload) w =
  (tt, w, [esp_log LOG_WARN Mqtt.TAG "Unknown command: %s"
             [ArgS (CStr.c_str (CStr.take 15 payload))]]).
Proof.
  intros Hlen Hon Hoff.
  unfold handle_valve_command, Mqtt.handle_valve_command. cbv zeta.
  pose proof (command_buffer payload Hlen) as Hbuf.
  set (cmd := if to_size_t (Mqtt.len payload) <? 16 - 1 then _ else _) in *.
  destruct (Z.eqb_spec (CStr.strcmp cmd "ON") 0) as [H|_].
  { apply strcmp_zero in H; [|reflexivity]. congruence. }
  destruct (Z.eqb_spec (CStr.strcmp cmd "OFF") 0) as [H|_].
  { apply strcmp_zero in H; [|reflexivity]. congruence. }
  rewrite Hbuf. reflexivity.
Qed.

(** In particular a payload without NUL that is not exactly "ON" or
    "OFF" changes nothing: no transition, no publish, no display call. *)
Lemma other_text_payload_dropped (base payload : string) (w : World) :
  CStr.c_str payload = payload ->
  Mqtt.len payload < 4294967296 ->
  payload <> "ON"%string -> payload <> "OFF"%string ->
  let message :=
    mqtt_event_handler base (Mqtt.MQTT_EVENT_DATA Mqtt.COMMAND_TOPIC payload) in
  exec message w = w /\
  publishes (effects message w) = [] /\
  display_calls (effects message w) = [] /\
  timer_calls (effects message w) = [] /\
  In (esp_log LOG_WARN Mqtt.TAG "Unknown command: %s" [ArgS (CStr.take 15 payload)])
     (effects message w).
Proof.
  intros Hnul Hlen Hon Hoff.
  assert (Hc : CStr.c_str (CStr.take 15 payload) = CStr.take 15 payload)
    by (apply c_str_take, Hnul).
  assert (H : handle_valve_command payload (Mqtt.len payload) w =
              (tt, w, [esp_log LOG_WARN Mqtt.TAG "Unknown command: %s"
                         [ArgS (CStr.take 15 payload)]])).
  { rewrite <- Hc. apply unknown_command_dropped; [exact Hlen | |];
      rewrite Hc; intros Heq; apply take_short in Heq; simpl; auto; lia. }
  cbv zeta. unfold mqtt_event_handler, Mqtt.mqtt_event_handler.
  fold handle_valve_command.
  unfold exec, effects, bind, ESP_LOGD, ESP_LOGI, emit.
  change ((Mqtt.len Mqtt.COMMAND_TOPIC =? CStr.strlen Mqtt.COMMAND_TOPIC)
          && (CStr.strncmp Mqtt.COMMAND_TOPIC Mqtt.COMMAND_TOPIC
                (String.length Mqtt.COMMAND_TOPIC) =? 0)) with true.
  cbv iota. rewrite H. simpl. repeat split; auto 10.
Qed.


(** C8.  A message on the command topic whose payload is the four bytes
    'O' 'N' NUL 'x' is neither "ON" nor "OFF", and yet it opens the
    valve, is published as "ON" and sets the toggle: the comparison
    stops at the first NUL of the copied payload. *)
Theorem payload_with_embedded_NUL_is_accepted :
  let message :=
    mqtt_event_handler "MQTT_EVENTS"
      (Mqtt.MQTT_EVENT_DATA Mqtt.COMMAND_TOPIC payload_ON_NUL_x) in
  payload_ON_NUL_x <> "ON"%string /\
  payload_ON_NUL_x <> "OFF"%string /\
  is_open online = false /\
  is_open (exec message online) = true /\
  state_publishes (effects message online) = [publish_state true] /\
  display_calls (effects message online) =
    [lv_obj_add_state toggle_btn LV_STATE_CHECKED;
     lv_label_set_text btn_label "Turn Water Off";
     lv_label_set_text timer_label "05:00"].
Proof.
  vm_compute. repeat split; discriminate.
Qed.

(* ------------------------------------------------------------------ *)
(** ** The WiFi station *)

Lemma wifi_retry_step base id ip (st : Wifi.State) :
  0 <= Wifi.s_retry_num st <= Wifi.WIFI_MAXIMUM_RETRY ->
  0 <= Wifi.s_retry_num (fst (Wifi.wifi_event_handler base id ip st))
    <= Wifi.WIFI_MAXIMUM_RETRY.
Proof.
  intros H. unfold Wifi.wifi_event_handler, Wifi.WIFI_MAXIMUM_RETRY in *.
  destruct st as [n g]. simpl in *.
  destruct (Wifi.esp_event_base_eqb base Wifi.WIFI_EVENT && (id =? Wifi.WIFI_EVENT_STA_START));
    [simpl; lia|].
  destruct (Wifi.esp_event_base_eqb base Wifi.WIFI_EVENT
            && (id =? Wifi.WIFI_EVENT_STA_DISCONNECTED)).
  - destruct (Z.ltb_spec n 5); simpl; [rewrite int_wrap_small by lia|]; lia.
  - destruct (Wifi.esp_event_base_eqb base Wifi.IP_EVENT && (id =? Wifi.IP_EVENT_STA_GOT_IP));
      simpl; lia.
Qed.

(** X1.  Whatever events the WiFi handler receives after start-up, the
    retry counter stays between 0 and [WIFI_MAXIMUM_RETRY] (5). *)
Theorem wifi_retry_counter_bounded (evs : list (Wifi.esp_event_base_t * Z * list Z)) :
  0 <= Wifi.s_retry_num (fst (Wifi.wifi_events evs Wifi.start))
    <= Wifi.WIFI_MAXIMUM_RETRY.
Proof.
  assert (H : forall st, 0 <= Wifi.s_retry_num st <= Wifi.WIFI_MAXIMUM_RETRY ->
            0 <= Wifi.s_retry_num (fst (Wifi.wifi_events evs st))
              <= Wifi.WIFI_MAXIMUM_RETRY).
  { induction evs as [|[[base id] ip] evs IH]; intros st Hst.
    - exact Hst.
    - simpl. pose proof (wifi_retry_step base id ip st Hst) as Hstep.
      destruct (Wifi.wifi_event_handler base id ip st) as [st1 c1].
      specialize (IH st1 Hstep).
      destruct (Wifi.wifi_events evs st1) as [st2 c2]. exact IH. }
  apply H. unfold Wifi.start, Wifi.WIFI_MAXIMUM_RETRY. simpl. lia.
Qed.

Lemma wifi_disconnects (n : nat) : forall st : Wifi.State,
  0 <= Wifi.s_retry_num st <= 5 ->
  let '(st', calls) := Wifi.wifi_events (repeat Wifi.disconnected_event n) st in
  Wifi.s_retry_num st' = Z.min 5 (Wifi.s_retry_num st + Z.of_nat n) /\
  Z.of_nat (List.length (filter Wifi.is_connect calls)) =
    Z.min (Z.of_nat n) (5 - Wifi.s_retry_num st) /\
  Z.of_nat (List.length (filter Wifi.is_fail_bit calls)) =
    Z.max 0 (Z.of_nat n - (5 - Wifi.s_retry_num st)) /\
  (Wifi.s_retry_num st + Z.of_nat n <= 5 ->
   Wifi.s_wifi_event_group st' = Wifi.s_wifi_event_group st).
Proof.
  induction n as [|n IH]; intros [r g] Hr.
  - cbn [repeat Wifi.wifi_events Wifi.s_retry_num Wifi.s_wifi_event_group
         filter List.length] in *.
    repeat split; try lia.
  - cbn [repeat Wifi.wifi_events Wifi.disconnected_event].
    unfold Wifi.wifi_event_handler.
    change (Wifi.esp_event_base_eqb Wifi.WIFI_EVENT Wifi.WIFI_EVENT
            && (Wifi.WIFI_EVENT_STA_DISCONNECTED =? Wifi.WIFI_EVENT_STA_START)) with false.
    change (Wifi.esp_event_base_eqb Wifi.WIFI_EVENT Wifi.WIFI_EVENT
            && (Wifi.WIFI_EVENT_STA_DISCONNECTED =? Wifi.WIFI_EVENT_STA_DISCONNECTED))
      with true.
    cbv iota. cbn [Wifi.s_retry_num Wifi.s_wifi_event_group] in *.
    unfold Wifi.WIFI_MAXIMUM_RETRY.
    destruct (Z.ltb_spec r 5) as [Hlt|Hge].
    + rewrite int_wrap_small by lia.
      specialize (IH (Wifi.mkState (r + 1) g) ltac:(simpl; lia)).
      fold Wifi.disconnected_event.
      destruct (Wifi.wifi_events (repeat Wifi.disconnected_event n) (Wifi.mkState (r + 1) g))
        as [st2 c2].
      cbn [Wifi.s_retry_num Wifi.s_wifi_event_group] in IH.
      destruct IH as (H1 & H2 & H3 & H4).
      cbn [app filter Wifi.is_connect Wifi.is_fail_bit List.length].
      repeat split; lia.
    + specialize (IH (Wifi.mkState r (Z.lor g Wifi.WIFI_FAIL_BIT)) ltac:(simpl; lia)).
      fold Wifi.disconnected_event.
      destruct (Wifi.wifi_events (repeat Wifi.disconnected_event n)
                  (Wifi.mkState r (Z.lor g Wifi.WIFI_FAIL_BIT))) as [st2 c2].
      cbn [Wifi.s_retry_num Wifi.s_wifi_event_group] in IH.
      destruct IH as (H1 & H2 & H3 & H4).
      cbn [app filter Wifi.is_connect Wifi.is_fail_bit List.length].
      change (Wifi.WIFI_FAIL_BIT =? Wifi.WIFI_FAIL_BIT) with true. cbn [List.length].
      repeat split; try lia.
Qed.

(** X2.  After [n] disconnections in a row from start-up, the handler
    has called [esp_wifi_connect] min(n, 5) times and has set the fail
    bit max(0, n - 5) times: it retries five times, then reports the
    failure on every further disconnection and no longer reconnects. *)
Theorem wifi_gives_up_after_five_retries (n : nat) :
  let calls := snd (Wifi.wifi_events (repeat Wifi.disconnected_event n) Wifi.start) in
  Z.of_nat (List.length (filter Wifi.is_connect calls)) = Z.min (Z.of_nat n) 5 /\
  Z.of_nat (List.length (filter Wifi.is_fail_bit calls)) = Z.max 0 (Z.of_nat n - 5).
Proof.
  pose proof (wifi_disconnects n Wifi.start ltac:(simpl; lia)) as H.
  destruct (Wifi.wifi_events (repeat Wifi.disconnected_event n) Wifi.start) as [st' calls].
  simpl in *. destruct H as (_ & H2 & H3 & _). split; lia.
Qed.

(** X3.  The handler never clears a bit of the event group, and a
    got-IP event sets the connected bit and puts the retry counter back
    to 0: a station that failed and later got an address shows both
    bits. *)
Theorem wifi_event_bits_only_grow base id ip (st : Wifi.State) (i : Z) :
  let st' := fst (Wifi.wifi_event_handler base id ip st) in
  (Z.testbit (Wifi.s_wifi_event_group st) i = true ->
   Z.testbit (Wifi.s_wifi_event_group st') i = true) /\
  (base = Wifi.IP_EVENT -> id = Wifi.IP_EVENT_STA_GOT_IP ->
   Z.testbit (Wifi.s_wifi_event_group st') 0 = true /\ Wifi.s_retry_num st' = 0).
Proof.
  destruct st as [r g]. unfold Wifi.wifi_event_handler. cbv zeta. split.
  - intros Hb. cbn [Wifi.s_retry_num Wifi.s_wifi_event_group] in *.
    destruct (Wifi.esp_event_base_eqb base Wifi.WIFI_EVENT && (id =? Wifi.WIFI_EVENT_STA_START));
      [exact Hb|].
    destruct (Wifi.esp_event_base_eqb base Wifi.WIFI_EVENT
              && (id =? Wifi.WIFI_EVENT_STA_DISCONNECTED)).
    + destruct (r <? Wifi.WIFI_MAXIMUM_RETRY);
        cbn [fst Wifi.s_retry_num Wifi.s_wifi_event_group]; [exact Hb|].
      rewrite Z.lor_spec, Hb. reflexivity.
    + destruct (Wifi.esp_event_base_eqb base Wifi.IP_EVENT && (id =? Wifi.IP_EVENT_STA_GOT_IP));
        cbn [fst Wifi.s_retry_num Wifi.s_wifi_event_group]; [|exact Hb].
      rewrite Z.lor_spec, Hb. reflexivity.
  - intros -> ->. cbn [Wifi.esp_event_base_eqb andb].
    change (Wifi.IP_EVENT_STA_GOT_IP =? Wifi.IP_EVENT_STA_GOT_IP) with true.
    cbn [fst Wifi.s_retry_num Wifi.s_wifi_event_group]. split; [|reflexivity].
    rewrite Z.lor_spec. apply orb_true_r.
Qed.

Lemma wifi_event_bits_only_grow_witness :
  Z.testbit (Wifi.s_wifi_event_group
    (fst (Wifi.wifi_event_handler Wifi.IP_EVENT Wifi.IP_EVENT_STA_GOT_IP [192; 168; 1; 7]
            (Wifi.mkState 5 Wifi.WIFI_FAIL_BIT)))) 1 = true /\
  Wifi.s_retry_num
    (fst (Wifi.wifi_event_handler Wifi.IP_EVENT Wifi.IP_EVENT_STA_GOT_IP [192; 168; 1; 7]
            (Wifi.mkState 5 Wifi.WIFI_FAIL_BIT))) = 0.
Proof.
  destruct (wifi_event_bits_only_grow Wifi.IP_EVENT Wifi.IP_EVENT_STA_GOT_IP
              [192; 168; 1; 7] (Wifi.mkState 5 Wifi.WIFI_FAIL_BIT) 1) as (Hkeep & Hgot).
  split.
  - apply Hkeep. reflexivity.
  - apply (Hgot eq_refl eq_refl).
Defined.

(* ------------------------------------------------------------------ *)
(** ** The WiFi status panel *)

(** X4.  The number of bars lies between 0 and 4 and never decreases
    when the signal gets stronger. *)
Theorem signal_bars_monotone (r1 r2 : Z) :
  r1 <= r2 ->
  0 <= WifiPanel.signal_bars r1 <= WifiPanel.signal_bars r2 /\
  WifiPanel.signal_bars r2 <= 4.
Proof.
  intros H. unfold WifiPanel.signal_bars.
  repeat match goal with
         | |- context [Z.geb ?a ?b] => destruct (Z.geb_spec a b)
         end; lia.
Qed.

Lemma signal_bars_monotone_witness :
  0 <= WifiPanel.signal_bars (-88) <= WifiPanel.signal_bars (-87) /\
  WifiPanel.signal_bars (-87) <= 4.
Proof.
  apply signal_bars_monotone. lia.
Defined.

(** X5.  With the display lock acquired and the station associated, one
    update writes the label and then colours the four bars in order;
    the bars that are not gray are exactly the first [signal_bars rssi]
    ones, and they all get the colour the signal calls for: green for 3
    or 4 bars, yellow for 2, orange for 1. *)
Theorem wifi_panel_bars (ap : WifiPanel.wifi_ap_record_t) (w : World) :
  lock_available w = true ->
  let bars := WifiPanel.signal_bars (WifiPanel.rssi ap) in
  let colour := if bars >=? 3 then WifiPanel.GREEN
                else if bars >=? 2 then WifiPanel.YELLOW else WifiPanel.ORANGE in
  exists text,
    snd (WifiPanel.update_wifi_status (Some ap) w) =
      WifiPanel.lv_label_set_text_ssid text ::
      map (fun i => WifiPanel.lv_obj_set_style_bg_color i
                      (if i <? bars then colour else WifiPanel.GRAY))
          [0; 1; 2; 3] /\
    Z.of_nat (List.length (filter WifiPanel.lit
                        (snd (WifiPanel.update_wifi_status (Some ap) w)))) = bars.
Proof.
  intros Hl. cbv zeta. unfold WifiPanel.update_wifi_status, lvgl_port_lock.
  unfold lock_available in Hl.
  eexists. destruct (lvgl_lock_script w) as [|[|] ls]; try discriminate;
    cbn [negb snd]; (split; [reflexivity|]);
    unfold WifiPanel.signal_bars;
    repeat match goal with
           | |- context [Z.geb ?a ?b] => destruct (Z.geb_spec a b)
           end; reflexivity.
Qed.

Lemma wifi_panel_bars_witness :
  exists text,
    snd (WifiPanel.update_wifi_status
           (Some {| WifiPanel.ssid := "Sanctuary"; WifiPanel.rssi := -70 |}) booted) =
      WifiPanel.lv_label_set_text_ssid text ::
      map (fun i => WifiPanel.lv_obj_set_style_bg_color i
                      (if i <? 2 then WifiPanel.YELLOW else WifiPanel.GRAY))
          [0; 1; 2; 3] /\
    Z.of_nat (List.length (filter WifiPanel.lit
      (snd (WifiPanel.update_wifi_status
           (Some {| WifiPanel.ssid := "Sanctuary"; WifiPanel.rssi := -70 |}) booted)))) = 2.
Proof.
  exact (wifi_panel_bars {| WifiPanel.ssid := "Sanctuary"; WifiPanel.rssi := -70 |}
           booted eq_refl).
Defined.

Lemma c_str_length_take (n : nat) : forall s : string,
  (String.length (CStr.c_str (CStr.take n s)) <= n)%nat.
Proof.
  induction n as [|n IH]; intros [|c r]; simpl; try lia.
  destruct (Ascii.eqb c CStr.NUL); simpl; [lia|]. specialize (IH r). lia.
Qed.

Lemma string_length_app (a b : string) :
  String.length (a ++ b) = (String.length a + String.length b)%nat.
Proof.
  induction a as [|c r IH]; simpl; [reflexivity | now rewrite IH].
Qed.

(** X6.  For a station whose SSID field holds a NUL within its 33
    bytes, the label is "WiFi: " followed by the C string of the field,
    never cut by the 50-byte buffer; without association it is
    "WiFi: Not Connected" and all four bars are gray; and without the
    display lock the panel is not touched at all. *)
Theorem wifi_panel_label (ap_info : option WifiPanel.wifi_ap_record_t) (w : World) :
  (forall ap, ap_info = Some ap -> ssid_terminated ap = true) ->
  let calls := snd (WifiPanel.update_wifi_status ap_info w) in
  if lock_available w then
    match ap_info with
    | Some ap =>
        hd_error calls =
          Some (WifiPanel.lv_label_set_text_ssid
                  ("WiFi: " ++ CStr.c_str (CStr.take 33 (WifiPanel.ssid ap))))
    | None =>
        calls =
          WifiPanel.lv_label_set_text_ssid "WiFi: Not Connected" ::
          map (fun i => WifiPanel.lv_obj_set_style_bg_color i WifiPanel.GRAY) [0; 1; 2; 3]
    end
  else calls = [].
Proof.
  intros _.
  cbv zeta. unfold WifiPanel.update_wifi_status, lvgl_port_lock, lock_available.
  destruct (lvgl_lock_script w) as [|[|] ls]; cbn [negb snd]; try reflexivity;
    destruct ap_info as [ap|]; try reflexivity; cbn [hd_error];
    unfold WifiPanel.SSID_SIZE, CStr.memcpy;
    rewrite drop_zeros; change (33 - 33)%nat with 0%nat;
    rewrite (c_str_app_zeros 0);
    unfold CStr.snprintf_fit; rewrite take_all; try reflexivity;
    rewrite string_length_app;
    pose proof (c_str_length_take 33 (WifiPanel.ssid ap));
    change (String.length "WiFi: ") with 6%nat; change (50 - 1)%nat with 49%nat; lia.
Qed.

Lemma wifi_panel_label_witness :
  hd_error
    (snd (WifiPanel.update_wifi_status
            (Some {| WifiPanel.ssid := "Sanctuary" ++ CStr.zeros 24;
                     WifiPanel.rssi := -60 |}) booted)) =
  Some (WifiPanel.lv_label_set_text_ssid "WiFi: Sanctuary").
Proof.
  refine (wifi_panel_label
            (Some {| WifiPanel.ssid := "Sanctuary" ++ CStr.zeros 24;
                     WifiPanel.rssi := -60 |}) booted _).
  intros ap Heq. injection Heq as <-. reflexivity.
Defined.

(* ------------------------------------------------------------------ *)
(** ** The countdown text *)

Lemma fmt_02d_two_digits (z : Z) :
  0 <= z < 100 -> CStr.fmt_02d z = two_digits z.
Proof.
  intros H.
  assert (Hall : forallb (fun n => String.eqb (CStr.fmt_02d (Z.of_nat n))
                                     (two_digits (Z.of_nat n)))
                         (seq 0 100) = true) by (vm_compute; reflexivity).
  rewrite forallb_forall in Hall.
  specialize (Hall (Z.to_nat z)). rewrite Z2Nat.id in Hall by lia.
  apply String.eqb_eq, Hall, in_seq. lia.
Qed.

Lemma display_text (sr : Z) :
  0 <= sr < 6000 ->
  (CStr.fmt_02d (Z.quot sr 60) ++ ":" ++ CStr.fmt_02d (Z.rem sr 60))%string =
  clock_text sr.
Proof.
  intros H. unfold clock_text.
  rewrite Z.quot_div_nonneg, Z.rem_mod_nonneg by lia.
  rewrite !fmt_02d_two_digits; [reflexivity | |].
  - pose proof (Z.mod_pos_bound sr 60 ltac:(lia)). lia.
  - split; [apply Z.div_pos; lia | apply Z.div_lt_upper_bound; lia].
Qed.

(** X7.  For a countdown between 0 and 5999 seconds, with the display
    lock acquired, [update_timer_display] writes to the countdown label
    exactly the five characters MM:SS, two decimal digits of minutes and
    two of seconds, and makes no other call; without the lock it makes
    none. *)
Theorem update_timer_display_text (w : World) :
  0 <= seconds_remaining w < 6000 ->
  effects App.update_timer_display w =
    (if lock_available w
     then [lv_label_set_text timer_label (clock_text (seconds_remaining w))]
     else []) /\
  String.length (clock_text (seconds_remaining w)) = 5%nat.
Proof.
  intros H. split; [|reflexivity].
  destruct w as [sr tr ct mc cb ls ms]. unfold lock_available.
  cbn [seconds_remaining lvgl_lock_script] in *.
  rewrite <- (display_text sr H).
  destruct ls as [|[|] ls]; reflexivity.
Qed.

Lemma update_timer_display_text_witness :
  effects App.update_timer_display open_50 =
    [lv_label_set_text timer_label "00:50"] /\
  String.length (clock_text 50) = 5%nat.
Proof.
  apply (update_timer_display_text open_50). simpl. lia.
Defined.

Lemma digit_inj (a b : Z) :
  0 <= a < 10 -> 0 <= b < 10 -> digit a = digit b -> a = b.
Proof.
  intros Ha Hb H. unfold digit in H.
  apply (f_equal nat_of_ascii) in H.
  rewrite !nat_ascii_embedding in H by lia. lia.
Qed.

Lemma two_digits_inj (a b : Z) :
  0 <= a < 100 -> 0 <= b < 100 -> two_digits a = two_digits b -> a = b.
Proof.
  intros Ha Hb H. unfold two_digits in H. injection H as H1 H2.
  apply digit_inj in H1, H2;
    try (split; [apply Z.div_pos; lia | apply Z.div_lt_upper_bound; lia]);
    try (apply Z.mod_pos_bound; lia).
  rewrite (Z.div_mod a 10), (Z.div_mod b 10) by lia. lia.
Qed.

Lemma clock_text_inj (a b : Z) :
  0 <= a < 6000 -> 0 <= b < 6000 -> clock_text a = clock_text b -> a = b.
Proof.
  intros Ha Hb H. unfold clock_text, two_digits in H. cbn [append] in H.
  injection H as H1 H2 H3 H4.
  assert (Hm : a / 60 = b / 60).
  { apply two_digits_inj; unfold two_digits; try congruence;
      (split; [apply Z.div_pos; lia | apply Z.div_lt_upper_bound; lia]). }
  assert (Hs : a mod 60 = b mod 60).
  { apply two_digits_inj; unfold two_digits; try congruence;
      pose proof (Z.mod_pos_bound a 60 ltac:(lia));
      pose proof (Z.mod_pos_bound b 60 ltac:(lia)); lia. }
  rewrite (Z.div_mod a 60), (Z.div_mod b 60) by lia. lia.
Qed.

Lemma timer_display_call (w : World) :
  0 <= seconds_remaining w < 6000 -> lock_available w = true ->
  display_calls (effects App.update_timer_display w) =
  [lv_label_set_text timer_label (clock_text (seconds_remaining w))].
Proof.
  intros H Hl. destruct w as [sr tr ct mc cb ls ms]. unfold lock_available in Hl.
  cbn [seconds_remaining lvgl_lock_script] in *.
  rewrite <- (display_text sr H).
  destruct ls as [|[|] ls]; [reflexivity | reflexivity | discriminate].
Qed.

(** X8.  With the display lock acquired, [update_timer_display] makes
    different calls to the display for different countdown values
    between 0 and 5999: the label determines the remaining time. *)
Theorem countdown_label_determines_remaining (w1 w2 : World) :
  0 <= seconds_remaining w1 < 6000 -> 0 <= seconds_remaining w2 < 6000 ->
  lock_available w1 = true -> lock_available w2 = true ->
  seconds_remaining w1 <> seconds_remaining w2 ->
  display_calls (effects App.update_timer_display w1) <>
  display_calls (effects App.update_timer_display w2).
Proof.
  intros H1 H2 L1 L2 Hne Heq.
  rewrite (timer_display_call w1 H1 L1), (timer_display_call w2 H2 L2) in Heq.
  apply Hne, clock_text_inj; [assumption | assumption | congruence].
Qed.

Lemma countdown_label_determines_remaining_witness :
  display_calls (effects App.update_timer_display open_50) <>
  display_calls (effects App.update_timer_display online).
Proof.
  apply countdown_label_determines_remaining;
    first [reflexivity | discriminate | (simpl; lia)].
Defined.

Lemma countdown_text_fits (sr : Z) :
  0 <= sr <= 300 ->
  String.length (CStr.fmt_02d (Z.quot sr 60) ++ ":" ++ CStr.fmt_02d (Z.rem sr 60)) = 5%nat.
Proof.
  intros H. rewrite display_text by lia. reflexivity.
Qed.

(** X9.  In every state the program reaches, whatever event comes next,
    each text the event writes to the countdown label is five
    characters long: the [sprintf] into the 16-byte [time_str] never
    overruns it, and the decrement of the counter never wraps. *)
Theorem countdown_text_never_overruns (e : Event) (w : World) :
  reachable w ->
  Forall (fun text => String.length text = 5%nat)
         (countdown_texts (effects (handle e) w)).
Proof.
  intros Hr. apply ValveInv_reachable in Hr. revert Hr.
  unfold ValveInv, countdown_texts. destruct w as [sr tr ct mc cb ls ms].
  destruct e as [code chk| |base ev|cbk|]; [destruct code, chk | | destruct ev | | ];
    crunch; intros (Hb & Ho & Hc); cbn [flat_map app];
    repeat constructor;
    try (apply countdown_text_fits; lia);
    specialize (Ho eq_refl); rewrite int_wrap_small by lia;
    apply countdown_text_fits; lia.
Qed.

Lemma countdown_text_never_overruns_witness :
  Forall (fun text => String.length text = 5%nat)
         (countdown_texts
            (effects (handle EvTick)
               (exec (run [EvToggle App.LV_EVENT_VALUE_CHANGED true]) power_on))).
Proof.
  apply countdown_text_never_overruns.
  exists power_on, [EvToggle App.LV_EVENT_VALUE_CHANGED true].
  split; [repeat split | reflexivity].
Defined.

(* ------------------------------------------------------------------ *)
(** ** The countdown timer handle *)

Lemma effects_run_cons (e : Event) (evs : list Event) (w : World) :
  effects (run (e :: evs)) w =
  effects (handle e) w ++ effects (run evs) (exec (handle e) w).
Proof. simpl. apply effects_bind. Qed.

Lemma timer_create_step (e : Event) (w : World) :
  (countdown_timer w <> None ->
   filter is_timer_create (effects (handle e) w) = [] /\
   countdown_timer (exec (handle e) w) <> None) /\
  (countdown_timer w = None ->
   (filter is_timer_create (effects (handle e) w) = [] /\
    countdown_timer (exec (handle e) w) = None) \/
   (filter is_timer_create (effects (handle e) w) = [lv_timer_create 1000] /\
    countdown_timer (exec (handle e) w) <> None)).
Proof.
  destruct w as [sr tr ct mc cb ls ms].
  destruct e as [code chk| |base ev|cbk|]; [destruct code, chk | | destruct ev | | ];
    crunch; split; intros H;
    try congruence;
    first [ split; [reflexivity | congruence]
          | left; split; [reflexivity | congruence]
          | right; split; [reflexivity | congruence] ].
Qed.

Lemma timer_create_run (evs : list Event) : forall w : World,
  (countdown_timer w <> None ->
   filter is_timer_create (effects (run evs) w) = []) /\
  (List.length (filter is_timer_create (effects (run evs) w)) <= 1)%nat /\
  (forall e, In e (filter is_timer_create (effects (run evs) w)) ->
             e = lv_timer_create 1000).
Proof.
  induction evs as [|e evs IH]; intros w.
  - cbn. repeat split; auto. intros e [].
  - rewrite effects_run_cons, filter_app.
    destruct (timer_create_step e w) as (Hsome & Hnone).
    destruct (IH (exec (handle e) w)) as (IH1 & IH2 & IH3).
    split; [|destruct (countdown_timer w) as [t|] eqn:Ht].
    + intros Hw. destruct (Hsome Hw) as (-> & Hw'). rewrite (IH1 Hw'). reflexivity.
    + destruct (Hsome ltac:(discriminate)) as (-> & Hw'). cbn [app]. auto.
    + destruct (Hnone eq_refl) as [(-> & _)|(-> & Hw')].
      * cbn [app]. auto.
      * rewrite (IH1 Hw'). cbn. split; [lia|]. intros e0 [<-|[]]. reflexivity.
Qed.

(** X10.  Over any sequence of events, from any state, the program
    creates the countdown timer at most once, with a period of 1000 ms,
    and never once [countdown_timer] is set: every later start of the
    countdown resumes the same timer. *)
Theorem countdown_timer_created_once (evs : list Event) (w : World) :
  (List.length (filter is_timer_create (effects (run evs) w)) <= 1)%nat /\
  (forall e, In e (filter is_timer_create (effects (run evs) w)) ->
             e = lv_timer_create 1000) /\
  (countdown_timer w = None \/
   filter is_timer_create (effects (run evs) w) = []).
Proof.
  destruct (timer_create_run evs w) as (H0 & H1 & H2).
  split; [exact H1 | split; [exact H2|]].
  destruct (countdown_timer w) as [t|]; [right; apply H0; discriminate | left; reflexivity].
Qed.

Lemma armed_step (e : Event) (w : World) :
  timer_armed w = timer_running w ->
  timer_armed (exec (handle e) w) = timer_running (exec (handle e) w).
Proof.
  destruct w as [sr tr ct mc cb ls ms].
  destruct e as [code chk| |base ev|cbk|]; [destruct code, chk | | destruct ev | | ];
    crunch; intros H; first [exact H | reflexivity | discriminate].
Qed.

(** X11.  In every state the program reaches, the countdown timer is
    armed exactly when the valve is open: the timer is paused in the
    same call that closes the valve and resumed in the one that opens
    it, so no tick is delivered for a closed valve. *)
Theorem timer_armed_iff_open (w : World) :
  reachable w -> timer_armed w = is_open w.
Proof.
  intros (w0 & evs & Hi & ->). unfold is_open.
  assert (H0 : timer_armed w0 = timer_running w0).
  { destruct Hi as (_ & Hr & Ht & _). unfold timer_armed. rewrite Hr, Ht. reflexivity. }
  clear Hi. revert w0 H0. induction evs as [|e evs IH]; intros w0 H0.
  - exact H0.
  - rewrite exec_run_cons. apply IH, armed_step, H0.
Qed.

Lemma timer_armed_iff_open_witness :
  timer_armed (exec (run [EvToggle App.LV_EVENT_VALUE_CHANGED true]) power_on) =
  is_open (exec (run [EvToggle App.LV_EVENT_VALUE_CHANGED true]) power_on).
Proof.
  apply timer_armed_iff_open.
  exists power_on, [EvToggle App.LV_EVENT_VALUE_CHANGED true].
  split; [repeat split | reflexivity].
Defined.

(* ------------------------------------------------------------------ *)
(** ** Ticks *)

(** X12.  Ticks on a closed valve do nothing: however many arrive, the
    world is unchanged and no call is made. *)
Theorem ticks_on_closed_valve (n : nat) (w : World) :
  is_open w = false ->
  exec (ticks n) w = w /\ effects (ticks n) w = [].
Proof.
  unfold is_open. intros Hc. induction n as [|n (IHw & IHe)].
  - split; reflexivity.
  - assert (H1 : on_timer_tick w = (tt, w, [])).
    { destruct w as [sr tr ct mc cb ls ms]. cbn in Hc. subst tr. reflexivity. }
    rewrite exec_ticks_S, effects_ticks_S.
    unfold exec at 2, effects at 1. unfold exec at 2. rewrite H1. cbn [fst snd app].
    split; assumption.
Qed.

Lemma ticks_on_closed_valve_witness :
  exec (ticks 7) online = online /\ effects (ticks 7) online = [].
Proof.
  apply ticks_on_closed_valve. reflexivity.
Defined.

Lemma auto_close_aux (n : nat) : forall w : World,
  timer_running w = true ->
  seconds_remaining w = Z.of_nat (S n) -> seconds_remaining w <= 300 ->
  let w' := exec (ticks (S n)) w in
  timer_running w' = false /\ seconds_remaining w' = 300 /\
  timer_armed w' = false /\
  state_publishes (effects (ticks (S n)) w) =
    (if mqtt_connected w then [publish_state false] else []).
Proof.
  induction n as [|n IH]; intros w Ht Hs Hle.
  - cbv zeta. rewrite exec_ticks_S, effects_ticks_S.
    destruct (tick_expires w Ht Hs) as (H1 & H2 & H3 & _ & H5 & _).
    cbn [ticks]. unfold state_publishes in *. rewrite filter_app, H5.
    cbn. rewrite app_nil_r. auto.
  - cbv zeta. rewrite exec_ticks_S, effects_ticks_S.
    destruct (tick_counts_down w Ht ltac:(lia)) as (H1 & H2 & _ & H4 & H5 & _).
    destruct (IH (exec on_timer_tick w) H2 ltac:(lia) ltac:(lia))
      as (G1 & G2 & G3 & G4).
    unfold state_publishes in *. rewrite filter_app, G4, H4.
    assert (Hnone : filter is_state_publish (effects on_timer_tick w) = []).
    { unfold publishes in H5.
      destruct (filter is_state_publish (effects on_timer_tick w)) as [|x l] eqn:Hf;
        [reflexivity|].
      assert (Hin : In x (filter is_publish (effects on_timer_tick w))).
      { assert (Hx : In x (filter is_state_publish (effects on_timer_tick w)))
          by (rewrite Hf; left; reflexivity).
        apply filter_In in Hx. destruct Hx as (Hx1 & Hx2).
        apply filter_In. split; [exact Hx1|]. destruct x; try discriminate. reflexivity. }
      rewrite H5 in Hin. destruct Hin. }
    rewrite Hnone. auto.
Qed.

(** X13.  An open valve with [r] seconds left (1 to 300) stays open
    through the first [r - 1] ticks and is closed by tick number [r]:
    the countdown is back at 300, the timer is paused, and "OFF" is
    published once if the broker is connected. *)
Theorem auto_close_after_remaining_ticks (w : World) :
  is_open w = true -> 1 <= remaining_seconds w <= 300 ->
  let r := Z.to_nat (remaining_seconds w) in
  (forall k : nat, (k < r)%nat -> is_open (exec (ticks k) w) = true) /\
  is_open (exec (ticks r) w) = false /\
  remaining_seconds (exec (ticks r) w) = 300 /\
  timer_armed (exec (ticks r) w) = false /\
  state_publishes (effects (ticks r) w) =
    (if mqtt_connected w then [publish_state false] else []).
Proof.
  unfold is_open, remaining_seconds. intros Ho Hr. cbv zeta. split.
  - intros k Hk. apply (ticks_count_down k w Ho). lia.
  - destruct (Z.to_nat (seconds_remaining w)) as [|n] eqn:Hn; [lia|].
    apply (auto_close_aux n w Ho); lia.
Qed.

Lemma auto_close_after_remaining_ticks_witness :
  is_open (exec (ticks 49) open_50) = true /\
  is_open (exec (ticks 50) open_50) = false /\
  state_publishes (effects (ticks 50) open_50) = [publish_state false].
Proof.
  destruct (auto_close_after_remaining_ticks open_50 eq_refl ltac:(simpl; lia))
    as (Hk & Hc & _ & _ & Hp).
  split; [apply (Hk 49%nat); simpl; lia | split; [exact Hc | exact Hp]].
Defined.

(* ------------------------------------------------------------------ *)
(** ** Commands and topics *)

Lemma strcmp_test (cmd lit : string) :
  CStr.c_str lit = lit ->
  (CStr.strcmp cmd lit =? 0) = String.eqb (CStr.c_str cmd) lit.
Proof.
  intros Hlit. destruct (String.eqb_spec (CStr.c_str cmd) lit) as [He|Hne].
  - apply Z.eqb_eq, strcmp_zero; assumption.
  - apply Z.eqb_neq. intros H. apply Hne, strcmp_zero; assumption.
Qed.

(** X14.  [handle_valve_command] sees of a payload only the C string in
    its first 15 bytes: two payloads (shorter than 2^32 bytes) with the
    same such string are handled identically, with the same state, the
    same calls and the same log lines. *)
Theorem command_is_read_as_c_string (p1 p2 : string) (w : World) :
  Mqtt.len p1 < 4294967296 -> Mqtt.len p2 < 4294967296 ->
  CStr.c_str (CStr.take 15 p1) = CStr.c_str (CStr.take 15 p2) ->
  handle_valve_command p1 (Mqtt.len p1) w = handle_valve_command p2 (Mqtt.len p2) w.
Proof.
  intros H1 H2 Heq.
  unfold handle_valve_command, Mqtt.handle_valve_command. cbv zeta.
  pose proof (command_buffer p1 H1) as Hb1.
  pose proof (command_buffer p2 H2) as Hb2.
  set (cmd1 := if to_size_t (Mqtt.len p1) <? 16 - 1 then _ else _) in *.
  set (cmd2 := if to_size_t (Mqtt.len p2) <? 16 - 1 then _ else _) in *.
  rewrite !strcmp_test by reflexivity.
  rewrite Hb1, Hb2, Heq. reflexivity.
Qed.

Lemma command_is_read_as_c_string_witness :
  handle_valve_command payload_ON_NUL_x 4 online = handle_valve_command "ON" 2 online.
Proof.
  apply (command_is_read_as_c_string payload_ON_NUL_x "ON" online);
    [reflexivity | reflexivity | reflexivity].
Defined.

(** X15.  A message on the command topic whose payload holds no NUL and
    is not exactly "ON" or "OFF" changes nothing: the world is as
    before, nothing is published, the display and the timer are not
    called, and the warning "Unknown command" is logged with the first
    15 bytes of the payload. *)
Theorem text_payload_other_than_on_off_is_dropped
    (base payload : string) (w : World) :
  CStr.c_str payload = payload ->
  Mqtt.len payload < 4294967296 ->
  payload <> "ON"%string -> payload <> "OFF"%string ->
  let message :=
    mqtt_event_handler base (Mqtt.MQTT_EVENT_DATA Mqtt.COMMAND_TOPIC payload) in
  exec message w = w /\
  publishes (effects message w) = [] /\
  display_calls (effects message w) = [] /\
  timer_calls (effects message w) = [] /\
  In (esp_log LOG_WARN Mqtt.TAG "Unknown command: %s" [ArgS (CStr.take 15 payload)])
     (effects message w).
Proof.
  intros Hnul Hlen Hon Hoff.
  exact (other_text_payload_dropped base payload w Hnul Hlen Hon Hoff).
Qed.

Lemma text_payload_other_than_on_off_is_dropped_witness :
  let message :=
    mqtt_event_handler "MQTT_EVENTS" (Mqtt.MQTT_EVENT_DATA Mqtt.COMMAND_TOPIC "on") in
  exec message open_50 = open_50 /\
  publishes (effects message open_50) = [] /\
  display_calls (effects message open_50) = [] /\
  timer_calls (effects message open_50) = [] /\
  In (esp_log LOG_WARN Mqtt.TAG "Unknown command: %s" [ArgS "on"])
     (effects message open_50).
Proof.
  apply (text_payload_other_than_on_off_is_dropped "MQTT_EVENTS" "on" open_50);
    [reflexivity | reflexivity | discriminate | discriminate].
Defined.

(** X16.  A message on any topic other than the command topic, be it a
    prefix or an extension of it, is only logged: the world is as
    before and no call but log lines is made, whatever the payload. *)
Theorem message_on_other_topic_is_ignored (base topic data : string) (w : World) :
  topic <> Mqtt.COMMAND_TOPIC ->
  let message := mqtt_event_handler base (Mqtt.MQTT_EVENT_DATA topic data) in
  exec message w = w /\ actions (effects message w) = [].
Proof.
  intros Hne. cbv zeta.
  unfold mqtt_event_handler, Mqtt.mqtt_event_handler.
  destruct ((Mqtt.len topic =? CStr.strlen Mqtt.COMMAND_TOPIC)
            && (CStr.strncmp topic Mqtt.COMMAND_TOPIC (String.length topic) =? 0))
    eqn:Htest.
  - apply command_topic_test in Htest. contradiction.
  - unfold exec, effects, bind. simpl. split; reflexivity.
Qed.

Lemma message_on_other_topic_is_ignored_witness :
  let message :=
    mqtt_event_handler "MQTT_EVENTS" (Mqtt.MQTT_EVENT_DATA "water_valve/set/x" "ON") in
  exec message online = online /\ actions (effects message online) = [].
Proof.
  apply (message_on_other_topic_is_ignored "MQTT_EVENTS" "water_valve/set/x" "ON" online).
  discriminate.
Defined.

(** X17.  As long as no callback is registered, a recognised command is
    confirmed on the state topic (while connected) but not applied: the
    valve state, the timer and the lock script are as before and
    neither the display nor the timer is called. *)
Theorem command_without_callback (opening : bool) (w : World) :
  state_change_callback w = None ->
  local_state (exec (request RemoteCommand opening) w) = local_state w /\
  local_calls (effects (request RemoteCommand opening) w) = [] /\
  publishes (effects (request RemoteCommand opening) w) =
    (if mqtt_connected w then [publish_state opening] else []).
Proof.
  destruct w as [sr tr ct mc cb ls ms]. unfold request, local_state.
  unfold_program. intros ->.
  destruct opening; crunch; repeat split; reflexivity.
Qed.

Lemma command_without_callback_witness :
  let w := set_mqtt_connected true power_on in
  local_state (exec (request RemoteCommand true) w) = local_state w /\
  local_calls (effects (request RemoteCommand true) w) = [] /\
  publishes (effects (request RemoteCommand true) w) = [publish_state true].
Proof.
  apply (command_without_callback true (set_mqtt_connected true power_on)).
  reflexivity.
Defined.

(* ------------------------------------------------------------------ *)
(** ** The broker client *)

Lemma publish_result_canonical (e : Event) (w : World) :
  let w0 := set_mqtt_msg_id_script [] w in
  local_state (exec (handle e) w) = local_state (exec (handle e) w0) /\
  mqtt_connected (exec (handle e) w) = mqtt_connected (exec (handle e) w0) /\
  actions (effects (handle e) w) = actions (effects (handle e) w0).
Proof.
  destruct w as [sr tr ct mc cb ls ms]. unfold local_state.
  destruct e as [code chk| |base ev|cbk|]; [destruct code, chk | | destruct ev | | ];
    crunch; repeat split; reflexivity.
Qed.

(** X18.  Whether the client accepts or refuses a message (the id it
    returns) changes nothing but log lines: for every event, the state
    left behind and the calls made are the same for any two scripts of
    returned ids. *)
Theorem publish_result_only_changes_logs (e : Event) (ids : list Z) (w : World) :
  let w' := set_mqtt_msg_id_script ids w in
  local_state (exec (handle e) w') = local_state (exec (handle e) w) /\
  mqtt_connected (exec (handle e) w') = mqtt_connected (exec (handle e) w) /\
  actions (effects (handle e) w') = actions (effects (handle e) w).
Proof.
  cbv zeta.
  destruct (publish_result_canonical e w) as (H1 & H2 & H3).
  destruct (publish_result_canonical e (set_mqtt_msg_id_script ids w)) as (G1 & G2 & G3).
  cbv zeta in *.
  change (set_mqtt_msg_id_script [] (set_mqtt_msg_id_script ids w))
    with (set_mqtt_msg_id_script [] w) in *.
  rewrite G1, G2, G3, H1, H2, H3. repeat split; reflexivity.
Qed.

(** X19.  While the broker is disconnected nothing is sent to it, on
    any topic, by any event other than the connection itself, and the
    program stays disconnected. *)
Theorem nothing_sent_while_disconnected (e : Event) (w : World) :
  mqtt_connected w = false -> is_connect_event e = false ->
  filter is_mqtt_call
         (effects (handle e) w) = [] /\
  mqtt_connected (exec (handle e) w) = false.
Proof.
  destruct w as [sr tr ct mc cb ls ms]. cbn [mqtt_connected]. intros -> He.
  destruct e as [code chk| |base ev|cbk|]; [destruct code, chk | | destruct ev | | ];
    try discriminate He; clear He;
    crunch; repeat split; reflexivity.
Qed.

Lemma nothing_sent_while_disconnected_witness :
  filter is_mqtt_call
         (effects (handle (EvToggle App.LV_EVENT_VALUE_CHANGED true)) booted) = [] /\
  mqtt_connected (exec (handle (EvToggle App.LV_EVENT_VALUE_CHANGED true)) booted) = false.
Proof.
  apply (nothing_sent_while_disconnected (EvToggle App.LV_EVENT_VALUE_CHANGED true) booted);
    reflexivity.
Defined.

(** X20.  No event of the broker client other than an incoming message
    touches the valve: connecting, disconnecting, acknowledgements and
    errors leave the valve state, the countdown, the timer and the
    registered callback as they are and call neither the display nor
    the timer; and only the two connection events change the connected
    flag. *)
Theorem broker_events_leave_the_valve_alone (base : string)
    (ev : Mqtt.esp_mqtt_event) (w : World) :
  is_data_event ev = false ->
  let w' := exec (mqtt_event_handler base ev) w in
  local_state w' = local_state w /\
  local_calls (effects (mqtt_event_handler base ev) w) = [] /\
  mqtt_connected w' =
    match ev with
    | Mqtt.MQTT_EVENT_CONNECTED => true
    | Mqtt.MQTT_EVENT_DISCONNECTED => false
    | _ => mqtt_connected w
    end.
Proof.
  destruct w as [sr tr ct mc cb ls ms]. unfold local_state.
  destruct ev; intros He; try discriminate He; clear He;
    crunch; repeat split; reflexivity.
Qed.

Lemma broker_events_leave_the_valve_alone_witness :
  let w' := exec (mqtt_event_handler "MQTT_EVENTS" Mqtt.MQTT_EVENT_DISCONNECTED) open_50 in
  local_state w' = local_state open_50 /\
  local_calls (effects (mqtt_event_handler "MQTT_EVENTS" Mqtt.MQTT_EVENT_DISCONNECTED)
                 open_50) = [] /\
  mqtt_connected w' = false.
Proof.
  apply (broker_events_leave_the_valve_alone "MQTT_EVENTS" Mqtt.MQTT_EVENT_DISCONNECTED
           open_50).
  reflexivity.
Defined.
